(** * Report Writing Studio front end: submission and verification-review logic

    A shallow embedding of [fullstack-app/frontend/src/App.jsx]: the
    [useState] cells of the [App] component as one record, its handlers as
    functions on that record, the values it derives on every render
    ([missingFields], [latestVerification], [activeVerification]) as
    functions of the state, and the requests it hands to axios as data. *)

From Stdlib Require Import ZArith List Bool Lia.
From Stdlib Require Import Strings.String Strings.Ascii.
From Stdlib Require Import Floats.SpecFloat.
From stdpp Require Import gmap strings list fin_maps pretty.

Set Warnings "-register-all".
#[local] Open Scope Z_scope.

(** ** JavaScript values *)

Module Js.

(** A JavaScript string is a sequence of UTF-16 code units.  Literals of the
    source are ASCII and are written [lit "..."]. *)
Definition code_unit := N.
Definition js_string := list code_unit.

Definition lit (s : string) : js_string :=
  map N_of_ascii (list_ascii_of_string s).

(** Numbers are IEEE-754 binary64 values, as specified by [SpecFloat]. *)
Definition prec : Z := 53.
Definition emax : Z := 1024.
Definition JsNumber := spec_float.

(** Values: JSON data plus [undefined].  Object keys are property names. *)
Inductive JsVal :=
| VUndefined
| VNull
| VBool (b : bool)
| VNum (n : JsNumber)
| VStr (s : js_string)
| VArr (l : list JsVal)
| VObj (o : gmap string JsVal).

(** What a render or a handler throws. *)
Inductive Thrown :=
| TypeError (what : string).

(** Fallible evaluation: [inl] is a throw. *)
Definition Except (A : Type) : Type := Thrown + A.

Definition ret {A} (a : A) : Except A := inr a.
Definition throw {A} (e : Thrown) : Except A := inl e.
Definition bind {A B} (m : Except A) (k : A -> Except B) : Except B :=
  match m with
  | inl e => inl e
  | inr a => k a
  end.

Notation "'let*' x ':=' m 'in' k" := (bind m (fun x => k))
  (at level 10, x name, m at level 100, k at level 200).

(** *** Strings *)

(** [WhiteSpace] and [LineTerminator] code points of ECMAScript, the set
    [String.prototype.trim] removes and [StringToNumber] skips. *)
Definition is_white_space (c : code_unit) : bool :=
  match c with
  | 9 | 10 | 11 | 12 | 13 | 32 | 160 | 5760
  | 8192 | 8193 | 8194 | 8195 | 8196 | 8197 | 8198 | 8199 | 8200 | 8201 | 8202
  | 8232 | 8233 | 8239 | 8287 | 12288 | 65279 => true
  | _ => false
  end%N.

Fixpoint trimStart (s : js_string) : js_string :=
  match s with
  | [] => []
  | c :: r => if is_white_space c then trimStart r else s
  end.

Definition trimEnd (s : js_string) : js_string :=
  rev (trimStart (rev s)).

(** [s.trim()] *)
Definition trim (s : js_string) : js_string :=
  trimEnd (trimStart s).

(** [a.join(sep)] on an array of strings *)
Fixpoint join (sep : js_string) (a : list js_string) : js_string :=
  match a with
  | [] => []
  | [x] => x
  | x :: r => x ++ sep ++ join sep r
  end.

(** *** Truthiness and property access *)

Definition is_zero_or_nan (n : JsNumber) : bool :=
  match n with
  | S754_zero _ | S754_nan => true
  | _ => false
  end.

(** [ToBoolean] *)
Definition truthy (v : JsVal) : bool :=
  match v with
  | VUndefined | VNull => false
  | VBool b => b
  | VNum n => negb (is_zero_or_nan n)
  | VStr s => match s with [] => false | _ => true end
  | VArr _ | VObj _ => true
  end.

(** [a || b] *)
Definition or_else (a b : JsVal) : JsVal :=
  if truthy a then a else b.

Definition nullish (v : JsVal) : bool :=
  match v with
  | VUndefined | VNull => true
  | _ => false
  end.

(** [v.name] for a name that no prototype defines: the own property of an
    object, [undefined] on any other value, a [TypeError] on [null] and
    [undefined] (the wording of its message is the engine's own). *)
Definition get (v : JsVal) (name : string) : Except JsVal :=
  match v with
  | VUndefined | VNull => throw (TypeError ("Cannot read properties (reading '" +:+ name +:+ "')"))
  | VObj o => ret (default VUndefined (o !! name))
  | _ => ret VUndefined
  end.

(** [v?.name] *)
Definition get_opt (v : JsVal) (name : string) : JsVal :=
  match v with
  | VObj o => default VUndefined (o !! name)
  | _ => VUndefined
  end.

(** [a[i]] for an integer [i]: an array element, the one-unit string at [i]
    of a string, the property named by the decimal of [i] of an object. *)
Definition index (a : JsVal) (i : Z) : Except JsVal :=
  match a with
  | VUndefined | VNull => throw (TypeError "Cannot read properties (index)")
  | VArr l => ret (if i <? 0 then VUndefined else default VUndefined (l !! Z.to_nat i))
  | VStr s => ret (if i <? 0 then VUndefined
                   else match s !! Z.to_nat i with
                        | Some c => VStr [c]
                        | None => VUndefined
                        end)
  | VObj o => ret (default VUndefined (o !! pretty i))
  | _ => ret VUndefined
  end.

(** [a.slice(-1)]: defined by arrays and strings only. *)
Definition slice_last (a : JsVal) : Except JsVal :=
  match a with
  | VArr l => ret (VArr (match last l with Some x => [x] | None => [] end))
  | VStr s => ret (VStr (match last s with Some c => [c] | None => [] end))
  | _ => throw (TypeError "slice is not a function")
  end.

(** *** Numbers *)

(** The double nearest to [n / d] (ties to even), for [0 <= n] and [0 < d]. *)
Definition of_ratio (neg : bool) (n d : Z) : JsNumber :=
  match n with
  | Z0 => S754_zero neg
  | _ =>
      let '(q, e, l) := SFdiv_core_binary prec emax n 0 d 0 in
      binary_round_aux prec emax neg q e l
  end.

Definition of_Z (z : Z) : JsNumber :=
  of_ratio (z <? 0) (Z.abs z) 1.

(** The integer a number is, when it is one. *)
Definition integer_value (x : JsNumber) : option Z :=
  match x with
  | S754_zero _ => Some 0
  | S754_finite s m e =>
      let v := if s then Z.neg m else Z.pos m in
      if 0 <=? e then Some (v * 2 ^ e)
      else if Z.pos m mod 2 ^ (- e) =? 0 then Some (v / 2 ^ (- e))
      else None
  | _ => None
  end.

Definition is_integer (x : JsNumber) : bool :=
  match integer_value x with Some _ => true | None => false end.

(** Digits of a numeric literal in the given base. *)
Definition digit_value (base : Z) (c : code_unit) : option Z :=
  let n := Z.of_N c in
  let d := if (48 <=? n) && (n <=? 57) then Some (n - 48)
           else if (97 <=? n) && (n <=? 102) then Some (n - 87)
           else if (65 <=? n) && (n <=? 70) then Some (n - 55)
           else None in
  match d with
  | Some v => if v <? base then Some v else None
  | None => None
  end.

(** Longest prefix of digits: its value, its length, and the rest. *)
Fixpoint span_digits (base : Z) (acc : Z) (len : Z) (s : js_string)
  : Z * Z * js_string :=
  match s with
  | [] => (acc, len, [])
  | c :: r =>
      match digit_value base c with
      | Some v => span_digits base (acc * base + v) (len + 1) r
      | None => (acc, len, s)
      end
  end.

(** [ExponentPart] opt, then the end of the literal. *)
Definition exponent_part (s : js_string) : option Z :=
  match s with
  | [] => Some 0
  | c :: r =>
      if (c =? 101)%N || (c =? 69)%N then
        let '(neg, r') :=
          match r with
          | 43%N :: t => (false, t)
          | 45%N :: t => (true, t)
          | _ => (false, r)
          end in
        match span_digits 10 0 0 r' with
        | (v, len, []) => if 0 <? len then Some (if neg then - v else v) else None
        | _ => None
        end
      else None
  end.

(** [StrUnsignedDecimalLiteral], given the sign read before it. *)
Definition unsigned_decimal (neg : bool) (s : js_string) : JsNumber :=
  if decide (s = lit "Infinity") then S754_infinity neg
  else
    let '(ip, ilen, r) := span_digits 10 0 0 s in
    let '(fp, flen, r') :=
      match r with
      | 46%N :: t => span_digits 10 ip 0 t
      | _ => (ip, 0, r)
      end in
    if (ilen + flen =? 0) then S754_nan
    else
      match exponent_part r' with
      | None => S754_nan
      | Some ex =>
          let sc := ex - flen in
          if 0 <=? sc then of_ratio neg (fp * 10 ^ sc) 1
          else of_ratio neg fp (10 ^ (- sc))
      end.

(** [NonDecimalIntegerLiteral]: [0x], [0o], [0b] in either case. *)
Definition non_decimal (s : js_string) : option JsNumber :=
  match s with
  | 48%N :: p :: r =>
      let base :=
        if (p =? 120)%N || (p =? 88)%N then Some 16
        else if (p =? 111)%N || (p =? 79)%N then Some 8
        else if (p =? 98)%N || (p =? 66)%N then Some 2
        else None in
      match base with
      | Some b =>
          match span_digits b 0 0 r with
          | (v, len, []) => Some (if 0 <? len then of_ratio false v 1 else S754_nan)
          | _ => Some S754_nan
          end
      | None => None
      end
  | _ => None
  end.

(** [StringToNumber], what [Number(s)] is for a string [s]. *)
Definition StringToNumber (s : js_string) : JsNumber :=
  match trim s with
  | [] => S754_zero false
  | t =>
      match non_decimal t with
      | Some n => n
      | None =>
          match t with
          | 43%N :: r => unsigned_decimal false r
          | 45%N :: r => unsigned_decimal true r
          | _ => unsigned_decimal false t
          end
      end
  end.

End Js.

(** ** The [App] component *)

Module App.
Import Js.

(** [mode] is only ever set to one of the two literals. *)
Inductive Mode := Recording | Transcript.

(** [mode === 'transcript'] and [mode === 'recording'] *)
Definition is_transcript (m : Mode) : bool :=
  match m with Transcript => true | Recording => false end.

Definition is_recording (m : Mode) : bool :=
  match m with Recording => true | Transcript => false end.

(** A [File] picked in a file input. *)
Record File := {
  file_name : js_string;
  file_bytes : list N
}.

(** [recordingFile], a [File] or [null], taken as a condition *)
Definition has_file (f : option File) : bool :=
  match f with Some _ => true | None => false end.

(** The [verificationRounds] cell holds the number literal of [useState] and
    [handleClearAll], or the text the number input reports. *)
Inductive RoundsCell :=
| RoundsNumber (n : Z)
| RoundsText (s : js_string).

(** One field per [useState] cell, in the order of the source. *)
#[projections(primitive)]
Record AppState := MkApp {
  mode : Mode;
  recordingFile : option File;
  transcript : js_string;
  transcriptFileName : js_string;
  meetingNotes : js_string;
  additionalInstructions : js_string;
  company : gmap string JsVal;
  useAzure : bool;
  selectedModel : js_string;
  verificationRounds : RoundsCell;
  useLanggraph : bool;
  compressAudio : bool;
  loading : bool;
  error : JsVal;
  reportId : JsVal;
  results : JsVal;
  selectedVerificationRound : Z;
  authUser : js_string;
  authPassword : js_string;
  authShowPassword : bool;
  authToken : JsVal
}.

(** The setters returned by [useState]: each replaces one cell. *)
Definition setMode (v : Mode) (st : AppState) : AppState :=
  let 'MkApp _ rf tr tn mn ai co ua sm vr ul ca ld er ri rs sr au ap sp tk := st in
  MkApp v rf tr tn mn ai co ua sm vr ul ca ld er ri rs sr au ap sp tk.

Definition setRecordingFile (v : option File) (st : AppState) : AppState :=
  let 'MkApp md _ tr tn mn ai co ua sm vr ul ca ld er ri rs sr au ap sp tk := st in
  MkApp md v tr tn mn ai co ua sm vr ul ca ld er ri rs sr au ap sp tk.

Definition setTranscript (v : js_string) (st : AppState) : AppState :=
  let 'MkApp md rf _ tn mn ai co ua sm vr ul ca ld er ri rs sr au ap sp tk := st in
  MkApp md rf v tn mn ai co ua sm vr ul ca ld er ri rs sr au ap sp tk.

Definition setTranscriptFileName (v : js_string) (st : AppState) : AppState :=
  let 'MkApp md rf tr _ mn ai co ua sm vr ul ca ld er ri rs sr au ap sp tk := st in
  MkApp md rf tr v mn ai co ua sm vr ul ca ld er ri rs sr au ap sp tk.

Definition setMeetingNotes (v : js_string) (st : AppState) : AppState :=
  let 'MkApp md rf tr tn _ ai co ua sm vr ul ca ld er ri rs sr au ap sp tk := st in
  MkApp md rf tr tn v ai co ua sm vr ul ca ld er ri rs sr au ap sp tk.

Definition setAdditionalInstructions (v : js_string) (st : AppState) : AppState :=
  let 'MkApp md rf tr tn mn _ co ua sm vr ul ca ld er ri rs sr au ap sp tk := st in
  MkApp md rf tr tn mn v co ua sm vr ul ca ld er ri rs sr au ap sp tk.

Definition setCompany (v : gmap string JsVal) (st : AppState) : AppState :=
  let 'MkApp md rf tr tn mn ai _ ua sm vr ul ca ld er ri rs sr au ap sp tk := st in
  MkApp md rf tr tn mn ai v ua sm vr ul ca ld er ri rs sr au ap sp tk.

Definition setUseAzure (v : bool) (st : AppState) : AppState :=
  let 'MkApp md rf tr tn mn ai co _ sm vr ul ca ld er ri rs sr au ap sp tk := st in
  MkApp md rf tr tn mn ai co v sm vr ul ca ld er ri rs sr au ap sp tk.

Definition setSelectedModel (v : js_string) (st : AppState) : AppState :=
  let 'MkApp md rf tr tn mn ai co ua _ vr ul ca ld er ri rs sr au ap sp tk := st in
  MkApp md rf tr tn mn ai co ua v vr ul ca ld er ri rs sr au ap sp tk.

Definition setVerificationRounds (v : RoundsCell) (st : AppState) : AppState :=
  let 'MkApp md rf tr tn mn ai co ua sm _ ul ca ld er ri rs sr au ap sp tk := st in
  MkApp md rf tr tn mn ai co ua sm v ul ca ld er ri rs sr au ap sp tk.

Definition setUseLanggraph (v : bool) (st : AppState) : AppState :=
  let 'MkApp md rf tr tn mn ai co ua sm vr _ ca ld er ri rs sr au ap sp tk := st in
  MkApp md rf tr tn mn ai co ua sm vr v ca ld er ri rs sr au ap sp tk.

Definition setCompressAudio (v : bool) (st : AppState) : AppState :=
  let 'MkApp md rf tr tn mn ai co ua sm vr ul _ ld er ri rs sr au ap sp tk := st in
  MkApp md rf tr tn mn ai co ua sm vr ul v ld er ri rs sr au ap sp tk.

Definition setLoading (v : bool) (st : AppState) : AppState :=
  let 'MkApp md rf tr tn mn ai co ua sm vr ul ca _ er ri rs sr au ap sp tk := st in
  MkApp md rf tr tn mn ai co ua sm vr ul ca v er ri rs sr au ap sp tk.

Definition setError (v : JsVal) (st : AppState) : AppState :=
  let 'MkApp md rf tr tn mn ai co ua sm vr ul ca ld _ ri rs sr au ap sp tk := st in
  MkApp md rf tr tn mn ai co ua sm vr ul ca ld v ri rs sr au ap sp tk.

Definition setReportId (v : JsVal) (st : AppState) : AppState :=
  let 'MkApp md rf tr tn mn ai co ua sm vr ul ca ld er _ rs sr au ap sp tk := st in
  MkApp md rf tr tn mn ai co ua sm vr ul ca ld er v rs sr au ap sp tk.

Definition setResults (v : JsVal) (st : AppState) : AppState :=
  let 'MkApp md rf tr tn mn ai co ua sm vr ul ca ld er ri _ sr au ap sp tk := st in
  MkApp md rf tr tn mn ai co ua sm vr ul ca ld er ri v sr au ap sp tk.

Definition setSelectedVerificationRound (v : Z) (st : AppState) : AppState :=
  let 'MkApp md rf tr tn mn ai co ua sm vr ul ca ld er ri rs _ au ap sp tk := st in
  MkApp md rf tr tn mn ai co ua sm vr ul ca ld er ri rs v au ap sp tk.

Definition setAuthUser (v : js_string) (st : AppState) : AppState :=
  let 'MkApp md rf tr tn mn ai co ua sm vr ul ca ld er ri rs sr _ ap sp tk := st in
  MkApp md rf tr tn mn ai co ua sm vr ul ca ld er ri rs sr v ap sp tk.

Definition setAuthPassword (v : js_string) (st : AppState) : AppState :=
  let 'MkApp md rf tr tn mn ai co ua sm vr ul ca ld er ri rs sr au _ sp tk := st in
  MkApp md rf tr tn mn ai co ua sm vr ul ca ld er ri rs sr au v sp tk.

Definition setAuthShowPassword (v : bool) (st : AppState) : AppState :=
  let 'MkApp md rf tr tn mn ai co ua sm vr ul ca ld er ri rs sr au ap _ tk := st in
  MkApp md rf tr tn mn ai co ua sm vr ul ca ld er ri rs sr au ap v tk.

Definition setAuthToken (v : JsVal) (st : AppState) : AppState :=
  let 'MkApp md rf tr tn mn ai co ua sm vr ul ca ld er ri rs sr au ap sp _ := st in
  MkApp md rf tr tn mn ai co ua sm vr ul ca ld er ri rs sr au ap sp v.

(** The default text of the two places that set [additionalInstructions]. *)
Definition default_instructions : js_string :=
  lit "Do not focus on the company's name in the transcript. Use the same company name as given in the company information.".

(** The object literal of the two places that set [company]. *)
Definition default_company : gmap string JsVal :=
  <["company_name" := VStr (lit "")]>
  (<["country" := VStr (lit "Finland")]>
  (<["consultation_date" := VStr (lit "")]>
  (<["experts" := VStr (lit "Umair Ali Khan, Janne Kauttonen")]>
  (<["customer_manager" := VStr (lit "")]>
  (<["consultation_type" := VStr (lit "Regular")]> ∅))))).

(** The state of the first render; [stored] is what
    [localStorage.getItem('authToken')] returns. *)
Definition initial (stored : option js_string) : AppState :=
  {| mode := Recording;
     recordingFile := None;
     transcript := lit "";
     transcriptFileName := lit "";
     meetingNotes := lit "";
     additionalInstructions := default_instructions;
     company := default_company;
     useAzure := true;
     selectedModel := lit "gpt-5.1";
     verificationRounds := RoundsNumber 5;
     useLanggraph := true;
     compressAudio := true;
     loading := false;
     error := VStr (lit "");
     reportId := VStr (lit "");
     results := VNull;
     selectedVerificationRound := 1;
     authUser := lit "";
     authPassword := lit "";
     authShowPassword := false;
     authToken := or_else (match stored with Some t => VStr t | None => VNull end)
                          (VStr (lit "")) |}.

(** *** Field validator *)

Definition required : list (string * js_string) :=
  [ ("company_name", lit "Company name");
    ("country", lit "Country");
    ("consultation_date", lit "Consultation date");
    ("experts", lit "Experts");
    ("customer_manager", lit "Customer manager");
    ("consultation_type", lit "Consultation type") ].

(** [!company[key]?.trim()]: the optional call yields [undefined] on
    [undefined] and [null], the trimmed text on a string, and throws on any
    other value, which has no callable [trim]. *)
Definition untrimmed_blank (company : gmap string JsVal) (key : string) : Except bool :=
  match default VUndefined (company !! key) with
  | VUndefined | VNull => ret (negb (truthy VUndefined))
  | VStr s => ret (negb (truthy (VStr (trim s))))
  | _ => throw (TypeError "company[key]?.trim is not a function")
  end.

(** [required.filter(([key]) => ...)] *)
Fixpoint filter_required (company : gmap string JsVal)
    (req : list (string * js_string)) : Except (list (string * js_string)) :=
  match req with
  | [] => ret []
  | (key, label) :: rest =>
      let* b := untrimmed_blank company key in
      let* kept := filter_required company rest in
      ret (if b then (key, label) :: kept else kept)
  end.

Definition missingFields (company : gmap string JsVal) : Except (list js_string) :=
  let* kept := filter_required company required in
  ret (map snd kept).

(** *** Plain handlers *)

(** [setCompany((prev) => ({ ...prev, [field]: value }))] *)
Definition handleCompanyChange (field : string) (value : js_string)
    (st : AppState) : AppState :=
  setCompany (<[field := VStr value]> (company st)) st.

(** [onChange] of the verification-rounds input: [event.target.value]. *)
Definition onVerificationRoundsChange (value : js_string) (st : AppState) : AppState :=
  setVerificationRounds (RoundsText value) st.

Definition resetResults (st : AppState) : AppState :=
  setResults VNull (setReportId (VStr (lit "")) st).

Definition handleClearAll (st : AppState) : AppState :=
  let st := setMode Transcript st in
  let st := setRecordingFile None st in
  let st := setTranscript (lit "") st in
  let st := setTranscriptFileName (lit "") st in
  let st := setMeetingNotes (lit "") st in
  let st := setAdditionalInstructions default_instructions st in
  let st := setCompany default_company st in
  let st := setUseAzure true st in
  let st := setSelectedModel (lit "gpt-5.1") st in
  let st := setVerificationRounds (RoundsNumber 5) st in
  let st := setUseLanggraph true st in
  let st := setCompressAudio true st in
  let st := setError (VStr (lit "")) st in
  let st := setSelectedVerificationRound 1 st in
  resetResults st.

(** *** Verification review: values derived on every render *)

(** [results?.verification_history?.slice(-1)[0]] *)
Definition latestVerification (results : JsVal) : Except JsVal :=
  let history := get_opt results "verification_history" in
  if nullish history then ret VUndefined
  else let* tail := slice_last history in index tail 0.

(** [results?.verification_history || []] *)
Definition verificationHistory (results : JsVal) : JsVal :=
  or_else (get_opt results "verification_history") (VArr []).

(** [verificationHistory[selectedVerificationRound - 1] || latestVerification] *)
Definition activeVerification (results : JsVal) (selected : Z) : Except JsVal :=
  let* latest := latestVerification results in
  let* picked := index (verificationHistory results) (selected - 1) in
  ret (or_else picked latest).

(** *** Requests and replies *)

(** A value appended to a [FormData]: a file, a string, or the text
    [JSON.stringify] makes of a value (kept as that value). *)
Inductive FormValue :=
| FormFile (f : File)
| FormString (s : js_string)
| FormJson (v : JsVal).

(** What is handed to [axios.post]: an object, sent as JSON, or a
    [FormData], sent as multipart. *)
Inductive Body :=
| JsonBody (v : JsVal)
| FormBody (entries : list (string * FormValue)).

Record Request := {
  url : js_string;
  body : Body
}.

(** The error object a rejected call is caught with, as far as the handler
    reads it: [err.response] and [err.message]. *)
Record JsError := {
  err_response : JsVal;
  err_message : JsVal
}.

(** How the awaited call settles: with [response.data], or by rejecting. *)
Inductive Reply :=
| Fulfilled (data : JsVal)
| Rejected (err : JsError).

(** [Number(verificationRounds)] and [String(verificationRounds)].  The
    number the cell can hold is the literal 5, whose text is its decimal. *)
Definition Number (c : RoundsCell) : JsNumber :=
  match c with
  | RoundsNumber n => of_Z n
  | RoundsText s => StringToNumber s
  end.

Definition String_of_rounds (c : RoundsCell) : js_string :=
  match c with
  | RoundsNumber n => lit (pretty n)
  | RoundsText s => s
  end.

Definition String_of_bool (b : bool) : js_string :=
  if b then lit "true" else lit "false".

(** *** Submission *)

Definition msg_login : js_string := lit "Please log in to generate a report.".
Definition msg_missing (missing : list js_string) : js_string :=
  lit "Missing required fields: " ++ join (lit ", ") missing.
Definition msg_transcript : js_string :=
  lit "Please provide a transcript before generating the report.".
Definition msg_recording : js_string :=
  lit "Please upload a recording before generating the report.".

(** Where [handleSubmit] stands when it returns or first awaits. *)
Inductive SubmitStart :=
| Refused (st' : AppState)
| InFlight (st' : AppState) (req : Request).

Section WithApi.

(** [import.meta.env.VITE_API_URL || 'http://localhost:8000'] *)
Variable API_URL : js_string.

Definition transcript_request (st : AppState) : Request :=
  {| url := API_URL ++ lit "/reports/from-transcript";
     body := JsonBody (VObj (
       <["transcript" := VStr (transcript st)]>
       (<["company_data" := VObj (company st)]>
       (<["meeting_notes" := VStr (meetingNotes st)]>
       (<["additional_instructions" := VStr (additionalInstructions st)]>
       (<["use_azure" := VBool (useAzure st)]>
       (<["selected_model" := VStr (selectedModel st)]>
       (<["verification_rounds" := VNum (Number (verificationRounds st))]>
       (<["use_langgraph" := VBool (useLanggraph st)]> ∅))))))))) |}.

(** [formData.append('file', recordingFile)]: a [File] goes in as it is,
    [null] as the string it converts to. *)
Definition form_file (f : option File) : FormValue :=
  match f with
  | Some file => FormFile file
  | None => FormString (lit "null")
  end.

Definition recording_request (st : AppState) : Request :=
  {| url := API_URL ++ lit "/reports/from-recording";
     body := FormBody
       [ ("file", form_file (recordingFile st));
         ("company_data", FormJson (VObj (company st)));
         ("meeting_notes", FormString (meetingNotes st));
         ("additional_instructions", FormString (additionalInstructions st));
         ("use_azure", FormString (String_of_bool (useAzure st)));
         ("selected_model", FormString (selectedModel st));
         ("verification_rounds", FormString (String_of_rounds (verificationRounds st)));
         ("compress_audio", FormString (String_of_bool (compressAudio st)));
         ("use_langgraph", FormString (String_of_bool (useLanggraph st))) ] |}.

(** [handleSubmit] up to its first [await] (or its early [return]).
    [missingFields] is the value memoized by the render the handler belongs
    to, so a profile on which it throws has no handler to run. *)
Definition handleSubmit_begin (st : AppState) : Except SubmitStart :=
  let* missing := missingFields (company st) in
  ret (
    if negb (truthy (authToken st)) then
      Refused (setError (VStr msg_login) st)
    else if negb (length missing =? 0)%nat then
      Refused (setError (VStr (msg_missing missing)) st)
    else if is_transcript (mode st) && negb (truthy (VStr (trim (transcript st)))) then
      Refused (setError (VStr msg_transcript) st)
    else if is_recording (mode st) && negb (has_file (recordingFile st)) then
      Refused (setError (VStr msg_recording) st)
    else
      InFlight (resetResults (setError (VStr (lit "")) (setLoading true st)))
               (if is_transcript (mode st) then transcript_request st
                else recording_request st)).

End WithApi.

(** [catch (err) { setError(err.response?.data?.detail || err.message) }] *)
Definition catch_error (err : JsError) (st : AppState) : AppState :=
  setError (or_else (get_opt (get_opt (err_response err) "data") "detail")
                    (err_message err)) st.

(** The error object of a [TypeError] thrown inside the [try] block. *)
Definition error_of_thrown (e : Thrown) : JsError :=
  match e with
  | TypeError what => {| err_response := VUndefined; err_message := VStr (lit what) |}
  end.

(** [handleSubmit] from the point the awaited call settles, on the state
    current at that time: both branches store [response.data.report_id] and
    [response.data.results]; [finally] clears [loading]. *)
Definition handleSubmit_settle (reply : Reply) (st : AppState) : AppState :=
  let after :=
    match reply with
    | Fulfilled data =>
        match get data "report_id" with
        | inl e => catch_error (error_of_thrown e) st
        | inr id =>
            let st := setReportId id st in
            match get data "results" with
            | inl e => catch_error (error_of_thrown e) st
            | inr res => setResults res st
            end
        end
    | Rejected err => catch_error err st
    end in
  setLoading false after.

(** One whole submission with nothing else happening while the call is
    pending: the final state and the calls made, in order. *)
Definition handleSubmit (API_URL : js_string) (server : Request -> Reply)
    (st : AppState) : Except (AppState * list Request) :=
  let* start := handleSubmit_begin API_URL st in
  ret (match start with
       | Refused st' => (st', [])
       | InFlight st' req => (handleSubmit_settle (server req) st', [req])
       end).

End App.

(** ** Vocabulary of the properties *)

Module Spec.
Import Js App.

(** A company profile as the form keeps it: six texts. *)
Record CompanyProfile := {
  company_name : js_string;
  country : js_string;
  consultation_date : js_string;
  experts : js_string;
  customer_manager : js_string;
  consultation_type : js_string
}.

(** The [company] object holding a profile. *)
Definition profile_object (p : CompanyProfile) : gmap string JsVal :=
  <["company_name" := VStr (company_name p)]>
  (<["country" := VStr (country p)]>
  (<["consultation_date" := VStr (consultation_date p)]>
  (<["experts" := VStr (experts p)]>
  (<["customer_manager" := VStr (customer_manager p)]>
  (<["consultation_type" := VStr (consultation_type p)]> ∅))))).

Definition whitespace_only (s : js_string) : bool := forallb is_white_space s.

Definition empty_after_trim (s : js_string) : bool :=
  match trim s with
  | [] => true
  | _ => false
  end.

(** [company[key]] *)
Definition field (company : gmap string JsVal) (key : string) : JsVal :=
  default VUndefined (company !! key).

Definition text_or_nullish (v : JsVal) : bool :=
  match v with
  | VUndefined | VNull | VStr _ => true
  | _ => false
  end.

(** What the validator is meant to report: no value, or only whitespace. *)
Definition counts_as_missing (v : JsVal) : bool :=
  match v with
  | VUndefined | VNull => true
  | VStr s => whitespace_only s
  | _ => false
  end.

(** A profile object with a [null], an [undefined] and an absent field. *)
Definition company_with_gaps : gmap string JsVal :=
  <["company_name" := VStr (lit "Acme")]>
  (<["country" := VNull]>
  (<["consultation_date" := VUndefined]>
  (<["customer_manager" := VStr (lit "  ")]>
  (<["consultation_type" := VStr (lit "Regular")]> ∅)))).

(** A profile object with a number where a text belongs. *)
Definition company_with_number : gmap string JsVal :=
  <["company_name" := VNum (of_Z 5)]> default_company.

(** A result payload with two verification rounds. *)
Definition round_with_score (n : Z) : JsVal :=
  VObj (<["score" := VNum (of_Z n)]> ∅).

Definition two_rounds : JsVal :=
  VObj (<["status" := VStr (lit "done")]>
       (<["verification_history" := VArr [round_with_score 6; round_with_score 8]]>
       (<["revision_history" := VArr []]> ∅))).

(** Every property of the [company] object holds text, as in every state
    the handlers produce. *)
Definition all_text (company : gmap string JsVal) : Prop :=
  forall key v, company !! key = Some v -> exists s, v = VStr s.

(** The three local preconditions of a submission. *)
Definition credential_present (st : AppState) : bool :=
  truthy (authToken st).

Definition payload_present (st : AppState) : bool :=
  match mode st with
  | Transcript => negb (empty_after_trim (transcript st))
  | Recording => match recordingFile st with Some _ => true | None => false end
  end.

Definition passes_validation (missing : list js_string) (st : AppState) : bool :=
  credential_present st
  && match missing with [] => true | _ => false end
  && payload_present st.

(** The state at the [await]: [loading] set, error and report cleared. *)
Definition pending (st : AppState) : AppState :=
  resetResults (setError (VStr (lit "")) (setLoading true st)).

(** The value a stored [verificationRounds] stands for is an integer from 1
    to 5. *)
Definition rounds_in_range (c : RoundsCell) : bool :=
  match integer_value (Number c) with
  | Some n => (1 <=? n) && (n <=? 5)
  | None => false
  end.

(** Sample states: a signed-in session with a complete profile, still in
    recording mode with no file; the same in transcript mode with a
    transcript; the same with a report on display and round 2 selected. *)
Definition api : js_string := lit "http://localhost:8000".

Definition filled_profile : CompanyProfile :=
  {| company_name := lit "Acme";
     country := lit "Finland";
     consultation_date := lit "2024-05-01";
     experts := lit "Umair Ali Khan, Janne Kauttonen";
     customer_manager := lit "Mia";
     consultation_type := lit "Regular" |}.

Definition signed_in : AppState :=
  setCompany (profile_object filled_profile)
    (setAuthToken (VStr (lit "token")) (initial None)).

Definition ready_transcript : AppState :=
  setTranscript (lit "Hello world") (setMode Transcript signed_in).

Definition with_report : AppState :=
  setSelectedVerificationRound 2
    (setResults two_rounds (setReportId (VStr (lit "r0")) ready_transcript)).

Definition signed_out_with_report : AppState :=
  setAuthToken (VStr (lit "")) with_report.

Definition fractional_rounds : AppState :=
  onVerificationRoundsChange (lit "2.5") ready_transcript.

Definition network_error : JsError :=
  {| err_response := VUndefined; err_message := VStr (lit "Network Error") |}.

Definition server_down (_ : Request) : Reply := Rejected network_error.

Definition one_round_reply : JsVal :=
  VObj (<["report_id" := VStr (lit "r1")]>
       (<["results" := VObj (<["status" := VStr (lit "done")]>
                            (<["verification_history" := VArr [round_with_score 8]]>
                            (<["revision_history" := VArr []]> ∅)))]> ∅)).

Definition server_ok (_ : Request) : Reply := Fulfilled one_round_reply.

End Spec.

(** ** Conversion to text *)

Module JsText.
Import Js.

(** The number [s * 10 ^ ex], for [0 < s]. *)
Definition of_decimal (s ex : Z) : JsNumber :=
  if 0 <=? ex then of_ratio false (s * 10 ^ ex) 1
  else of_ratio false s (10 ^ (- ex)).

Definition same_number (x y : JsNumber) : bool :=
  match x, y with
  | S754_finite sx mx ex, S754_finite sy my ey =>
      Bool.eqb sx sy && (Z.pos mx =? Z.pos my) && (ex =? ey)
  | S754_zero sx, S754_zero sy => Bool.eqb sx sy
  | S754_infinity sx, S754_infinity sy => Bool.eqb sx sy
  | S754_nan, S754_nan => true
  | _, _ => false
  end.

(** The [n] with [10 ^ (n - 1) <= p / q < 10 ^ n], searched upwards. *)
Fixpoint decimal_exponent (fuel : nat) (n : Z) (p q : Z) : Z :=
  match fuel with
  | O => n
  | S fuel' =>
      if (if 0 <=? n then p <? q * 10 ^ n else p * 10 ^ (- n) <? q) then n
      else decimal_exponent fuel' (n + 1) p q
  end.

(** The digits [s], their count [k] and the exponent [n] of
    [Number::toString]: [k] is the least count for which some [s] of [k]
    digits has [s * 10 ^ (n - k)] read back as [x = p / q]; of two such [s]
    the nearer to [x], the even one on a tie. *)
Fixpoint shortest_digits (fuel : nat) (k : Z) (x : JsNumber) (n p q : Z) : Z * Z * Z :=
  let ex := n - k in
  let lo := if 0 <=? ex then p / (q * 10 ^ ex) else (p * 10 ^ (- ex)) / q in
  let hi := lo + 1 in
  let ok_lo := same_number (of_decimal lo ex) x in
  let ok_hi := same_number (of_decimal hi ex) x in
  let side := if 0 <=? ex then Z.compare (2 * p) ((2 * lo + 1) * 10 ^ ex * q)
              else Z.compare (2 * p * 10 ^ (- ex)) ((2 * lo + 1) * q) in
  let pick s := if s =? 10 ^ k then (10 ^ (k - 1), k, n + 1) else (s, k, n) in
  match fuel with
  | O => pick lo
  | S fuel' =>
      match ok_lo, ok_hi with
      | true, false => pick lo
      | false, true => pick hi
      | true, true =>
          match side with
          | Lt => pick lo
          | Gt => pick hi
          | Eq => pick (if Z.even lo then lo else hi)
          end
      | false, false => shortest_digits fuel' (k + 1) x n p q
      end
  end.

Definition zeros (n : Z) : js_string := repeat 48%N (Z.to_nat n).

(** [Number::toString] of the positive finite number [m * 2 ^ e]. *)
Definition positive_to_string (m : positive) (e : Z) : js_string :=
  let p := if 0 <=? e then Z.pos m * 2 ^ e else Z.pos m in
  let q := if 0 <=? e then 1 else 2 ^ (- e) in
  let x := of_ratio false p q in
  let n0 := decimal_exponent 700 (-330) p q in
  let '(s, k, n) := shortest_digits 20 1 x n0 p q in
  let digits := lit (pretty s) in
  if (k <=? n) && (n <=? 21) then digits ++ zeros (n - k)
  else if (0 <? n) && (n <=? 21) then
    take (Z.to_nat n) digits ++ lit "." ++ drop (Z.to_nat n) digits
  else if (-6 <? n) && (n <=? 0) then lit "0." ++ zeros (- n) ++ digits
  else
    let e' := n - 1 in
    let tail := lit "e" ++ (if e' <? 0 then lit "-" else lit "+")
                        ++ lit (pretty (Z.abs e')) in
    if k =? 1 then digits ++ tail
    else take 1 digits ++ lit "." ++ drop 1 digits ++ tail.

(** [Number::toString(x)] in radix 10 *)
Definition number_to_string (x : JsNumber) : js_string :=
  match x with
  | S754_nan => lit "NaN"
  | S754_zero _ => lit "0"
  | S754_infinity s => (if s then lit "-" else lit "") ++ lit "Infinity"
  | S754_finite s m e => (if s then lit "-" else lit "") ++ positive_to_string m e
  end.

(** [ToString], what a template literal and [localStorage.setItem] make of a
    value: an array joins its elements with commas, [null] and [undefined]
    elements as empty text; a plain object is [[object Object]]. *)
Fixpoint ToString (v : JsVal) : js_string :=
  match v with
  | VUndefined => lit "undefined"
  | VNull => lit "null"
  | VBool b => if b then lit "true" else lit "false"
  | VNum n => number_to_string n
  | VStr s => s
  | VArr l =>
      join (lit ",")
        (List.map (fun e => match e with
                            | VUndefined | VNull => []
                            | _ => ToString e
                            end) l)
  | VObj _ => lit "[object Object]"
  end.

(** [a?.[i]] *)
Definition index_opt (a : JsVal) (i : Z) : JsVal :=
  match index a i with
  | inr v => v
  | inl _ => VUndefined
  end.

End JsText.

(** ** The rest of the component: session, transcript file, links *)

Module Rest.
Import Js App JsText.

(** What the page shares with the browser: [localStorage], and the default
    [Authorization] header of axios ([None] when the property is absent).
    Writes to the storage are taken to succeed. *)
Record Browser := {
  localStorage : gmap string js_string;
  Authorization : option js_string
}.

(** The assignment made on every render:
    [if (authToken) axios.defaults.headers.common.Authorization = `Bearer ${authToken}`] *)
Definition render_effect (st : AppState) (b : Browser) : Browser :=
  if truthy (authToken st)
  then {| localStorage := localStorage b;
          Authorization := Some (lit "Bearer " ++ ToString (authToken st)) |}
  else b.

(** A page load: the cells start from [localStorage], axios from its own
    defaults. *)
Definition reload (b : Browser) : AppState * Browser :=
  (initial (localStorage b !! "authToken"),
   {| localStorage := localStorage b; Authorization := None |}).

Definition msg_credentials : js_string := lit "Enter both username and password.".

Inductive LoginStart :=
| LoginRefused (st' : AppState)
| LoginInFlight (st' : AppState) (req : Request).

Definition login_request (API_URL : js_string) (st : AppState) : Request :=
  {| url := API_URL ++ lit "/auth/login";
     body := JsonBody (VObj (<["username" := VStr (authUser st)]>
                            (<["password" := VStr (authPassword st)]> ∅))) |}.

(** [handleLogin] up to its [await] (or its early [return]) *)
Definition handleLogin_begin (API_URL : js_string) (st : AppState) : LoginStart :=
  if negb (truthy (VStr (trim (authUser st))))
     || negb (truthy (VStr (trim (authPassword st)))) then
    LoginRefused (setError (VStr msg_credentials) st)
  else
    LoginInFlight (setError (VStr (lit "")) (setLoading true st))
                  (login_request API_URL st).

(** [handleLogin] from the point the call settles *)
Definition handleLogin_settle (reply : Reply) (st : AppState) (b : Browser)
  : AppState * Browser :=
  let '(st1, b1) :=
    match reply with
    | Fulfilled data =>
        match get data "access_token" with
        | inl e => (catch_error (error_of_thrown e) st, b)
        | inr token =>
            (setAuthToken token st,
             {| localStorage := <["authToken" := ToString token]> (localStorage b);
                Authorization := Some (lit "Bearer " ++ ToString token) |})
        end
    | Rejected err => (catch_error err st, b)
    end in
  (setLoading false st1, b1).

(** One whole login with nothing else happening while the call is pending *)
Definition handleLogin (API_URL : js_string) (server : Request -> Reply)
    (st : AppState) (b : Browser) : AppState * Browser * list Request :=
  match handleLogin_begin API_URL st with
  | LoginRefused st' => (st', b, [])
  | LoginInFlight st' req =>
      (handleLogin_settle (server req) st' b, [req])
  end.

Definition handleLogout (st : AppState) (b : Browser) : AppState * Browser :=
  (setAuthShowPassword false
     (setAuthPassword (lit "")
        (setAuthUser (lit "")
           (setAuthToken (VStr (lit "")) st))),
   {| localStorage := delete "authToken" (localStorage b);
      Authorization := None |}).

(** What the reader reports back: [onload] with [event.target?.result], or
    [onerror]. *)
Inductive ReadEvent :=
| OnLoad (result : JsVal)
| OnError.

(** [handleTranscriptFile(file)], the synchronous part: without a file the
    shown name is cleared; with one, a read is started. *)
Definition handleTranscriptFile (file : option File) (st : AppState)
  : AppState * option File :=
  match file with
  | None => (setTranscriptFileName (lit "") st, None)
  | Some f => (st, Some f)
  end.

(** The [onload] and [onerror] callbacks of that read *)
Definition transcript_read_done (file : File) (ev : ReadEvent) (st : AppState)
  : AppState :=
  match ev with
  | OnLoad (VStr text) => setTranscriptFileName (file_name file) (setTranscript text st)
  | OnLoad _ => st
  | OnError => setError (VStr (lit "Unable to read transcript file.")) st
  end.

(** [reportId ? `${API_URL}/reports/${reportId}/download` : null] and its
    [html] sibling *)
Definition downloadUrl (API_URL : js_string) (st : AppState) : JsVal :=
  if truthy (reportId st)
  then VStr (API_URL ++ lit "/reports/" ++ ToString (reportId st) ++ lit "/download")
  else VNull.

Definition htmlUrl (API_URL : js_string) (st : AppState) : JsVal :=
  if truthy (reportId st)
  then VStr (API_URL ++ lit "/reports/" ++ ToString (reportId st) ++ lit "/html")
  else VNull.

(** The conditions of the three sections: [!authToken] for the sign-in
    card, [authToken] for the studio, [results && authToken] for the report. *)
Definition sign_in_shown (st : AppState) : bool := negb (truthy (authToken st)).
Definition report_shown (st : AppState) : bool :=
  truthy (results st) && truthy (authToken st).

(** [results?.revision_history?.[selectedVerificationRound - 1]?.revision_summary],
    the condition of the revision panel *)
Definition revision_guard (results : JsVal) (selected : Z) : JsVal :=
  get_opt (index_opt (get_opt results "revision_history") (selected - 1))
          "revision_summary".

(** [results.revision_history[selectedVerificationRound - 1].revision_summary],
    what the panel shows *)
Definition revision_shown (results : JsVal) (selected : Z) : Except JsVal :=
  let* history := get results "revision_history" in
  let* entry := index history (selected - 1) in
  get entry "revision_summary".

End Rest.

(** ** The page as a state machine *)

Module Machine.
Import Js App JsText Rest.

(** What can happen to the page, one constructor per control of the
    component (the field names, round numbers and options a control can
    send are not restricted here, and neither are the controls that are
    hidden or disabled in a state: there are more runs than the page has).
    A handler that awaits runs to its end before the next event. *)
Inductive Event :=
| ModeClicked (m : Mode)
| RecordingPicked (f : option File)
| TranscriptPicked (f : option File) (ev : ReadEvent)
| TranscriptTyped (v : js_string)
| NotesTyped (v : js_string)
| InstructionsTyped (v : js_string)
| CompanyTyped (name : string) (v : js_string)
| AzureToggled (v : bool)
| LanggraphToggled (v : bool)
| CompressToggled (v : bool)
| RoundsTyped (v : js_string)
| ModelChosen (v : js_string)
| RoundClicked (n : Z)
| UserTyped (v : js_string)
| PasswordTyped (v : js_string)
| ShowPasswordToggled (v : bool)
| SubmitClicked (server : Request -> Reply)
| ClearAllClicked
| LoginClicked (server : Request -> Reply)
| LogoutClicked
| Reloaded.

Section Run.

Variable API_URL : js_string.

(** The handler of an event. *)
Definition handle (ev : Event) (st : AppState) (b : Browser) : AppState * Browser :=
  match ev with
  | ModeClicked m => (setMode m st, b)
  | RecordingPicked f => (setRecordingFile f st, b)
  | TranscriptPicked f read =>
      match handleTranscriptFile f st with
      | (st1, Some file) => (transcript_read_done file read st1, b)
      | (st1, None) => (st1, b)
      end
  | TranscriptTyped v => (setTranscript v st, b)
  | NotesTyped v => (setMeetingNotes v st, b)
  | InstructionsTyped v => (setAdditionalInstructions v st, b)
  | CompanyTyped name v => (handleCompanyChange name v st, b)
  | AzureToggled v => (setUseAzure v st, b)
  | LanggraphToggled v => (setUseLanggraph v st, b)
  | CompressToggled v => (setCompressAudio v st, b)
  | RoundsTyped v => (onVerificationRoundsChange v st, b)
  | ModelChosen v => (setSelectedModel v st, b)
  | RoundClicked n => (setSelectedVerificationRound n st, b)
  | UserTyped v => (setAuthUser v st, b)
  | PasswordTyped v => (setAuthPassword v st, b)
  | ShowPasswordToggled v => (setAuthShowPassword v st, b)
  | SubmitClicked server =>
      match handleSubmit API_URL server st with
      | inr (st', _) => (st', b)
      | inl _ => (st, b)
      end
  | ClearAllClicked => (handleClearAll st, b)
  | LoginClicked server => fst (handleLogin API_URL server st b)
  | LogoutClicked => handleLogout st b
  | Reloaded => reload b
  end.

(** An event, then the render that follows it. *)
Definition step (s : AppState * Browser) (ev : Event) : AppState * Browser :=
  let '(st', b') := handle ev (fst s) (snd s) in
  (st', render_effect st' b').

(** The page after loading in a browser and a sequence of events. *)
Definition run (b0 : Browser) (events : list Event) : AppState * Browser :=
  fold_left step events (step (initial None, b0) Reloaded).

End Run.


End Machine.

(** ** Sample sessions *)

Module Samples.
Import Js App JsText Rest Spec Machine.

Definition fresh_browser : Browser :=
  {| localStorage := ∅; Authorization := None |}.

(** The sign-in form filled in, before the first sign-in. *)
Definition typed_login : AppState :=
  setAuthPassword (lit "secret") (setAuthUser (lit "ann") (initial None)).

Definition half_typed_login : AppState :=
  setAuthUser (lit "ann") (initial None).

Definition token_reply : gmap string JsVal :=
  <["access_token" := VStr (lit "tok")]> (<["token_type" := VStr (lit "bearer")]> ∅).

Definition tokenless_reply : gmap string JsVal :=
  <["token_type" := VStr (lit "bearer")]> ∅.

Definition server_login (_ : Request) : Reply := Fulfilled (VObj token_reply).
Definition server_tokenless (_ : Request) : Reply := Fulfilled (VObj tokenless_reply).
Definition server_empty (_ : Request) : Reply := Fulfilled VNull.

Definition notes_file : File :=
  {| file_name := lit "meeting.txt"; file_bytes := [] |}.

(** A result payload whose second round has a revision summary. *)
Definition revised_rounds : JsVal :=
  VObj (<["verification_history" := VArr [round_with_score 6; round_with_score 8]]>
       (<["revision_history" :=
            VArr [VObj (<["revision_summary" := VStr (lit "Tightened the summary.")]> ∅)]]> ∅)).

End Samples.

(** ** Properties *)

Import Js App Spec.

(** *** Trimming *)

Lemma trimStart_nil_iff (s : js_string) :
  trimStart s = [] <-> forallb is_white_space s = true.
Proof.
  induction s as [|c r IH]; simpl; [tauto|].
  destruct (is_white_space c); simpl; [exact IH|].
  split; discriminate.
Qed.

Lemma trimStart_head (s : js_string) (c : code_unit) (r : js_string) :
  trimStart s = c :: r -> is_white_space c = false.
Proof.
  induction s as [|d t IH]; simpl; [discriminate|].
  destruct (is_white_space d) eqn:E; [exact IH|].
  intros [= -> _]. exact E.
Qed.

Lemma forallb_trimStart (s : js_string) :
  forallb is_white_space (trimStart s) = forallb is_white_space s.
Proof.
  induction s as [|c r IH]; simpl; [reflexivity|].
  destruct (is_white_space c) eqn:E; simpl; [exact IH|].
  now rewrite E.
Qed.

Lemma forallb_rev {A} (f : A -> bool) (l : list A) :
  forallb f (rev l) = forallb f l.
Proof.
  induction l as [|a l IH]; simpl; [reflexivity|].
  rewrite forallb_app, IH. simpl. rewrite andb_true_r. apply andb_comm.
Qed.

(** A string trims to the empty string exactly when it is whitespace only. *)
Lemma trim_nil_iff (s : js_string) :
  trim s = [] <-> forallb is_white_space s = true.
Proof.
  unfold trim, trimEnd.
  rewrite <- (forallb_trimStart s), <- (forallb_rev _ (trimStart s)).
  rewrite <- trimStart_nil_iff.
  split; intros H.
  - apply (f_equal (@rev _)) in H. rewrite rev_involutive in H. exact H.
  - now rewrite H.
Qed.

Lemma truthy_trim (s : js_string) :
  truthy (VStr (trim s)) = negb (whitespace_only s).
Proof.
  unfold whitespace_only.
  destruct (forallb is_white_space s) eqn:E.
  - apply trim_nil_iff in E. now rewrite E.
  - destruct (trim s) eqn:T; [|reflexivity].
    apply trim_nil_iff in T. congruence.
Qed.

(** *** The field validator on text, [null] and [undefined] *)

Lemma untrimmed_blank_ok (company : gmap string JsVal) (key : string) :
  text_or_nullish (field company key) = true ->
  untrimmed_blank company key = inr (counts_as_missing (field company key)).
Proof.
  unfold untrimmed_blank, field.
  destruct (default VUndefined (company !! key));
    cbn [text_or_nullish counts_as_missing]; try discriminate; intros _;
    try reflexivity.
  unfold ret. now rewrite truthy_trim, negb_involutive.
Qed.

Lemma filter_required_ok (company : gmap string JsVal) (req : list (string * js_string)) :
  (forall kl, In kl req -> text_or_nullish (field company kl.1) = true) ->
  filter_required company req =
    inr (List.filter (fun kl => counts_as_missing (field company kl.1)) req).
Proof.
  induction req as [|[key label] rest IH]; intros H; simpl; [reflexivity|].
  rewrite (untrimmed_blank_ok company key) by (apply (H (key, label)); now left).
  simpl. rewrite IH by (intros kl Hk; apply H; now right).
  reflexivity.
Qed.

Lemma missingFields_ok (company : gmap string JsVal) :
  (forall kl, In kl required -> text_or_nullish (field company kl.1) = true) ->
  missingFields company =
    inr (map snd (List.filter (fun kl => counts_as_missing (field company kl.1)) required)).
Proof.
  intros H. unfold missingFields. now rewrite filter_required_ok.
Qed.

(** *** Field validator *)

(** C2. On every company profile, [missingFields] returns the labels of
    exactly those of the six fields that are empty after trimming, in the
    declared order Company name, Country, Consultation date, Experts,
    Customer manager, Consultation type, and nothing else; a field is empty
    after trimming exactly when it holds only whitespace. *)
Theorem C2_missingFields_exact (p : CompanyProfile) :
  missingFields (profile_object p) = inr (
    (if empty_after_trim (company_name p) then [lit "Company name"] else []) ++
    (if empty_after_trim (country p) then [lit "Country"] else []) ++
    (if empty_after_trim (consultation_date p) then [lit "Consultation date"] else []) ++
    (if empty_after_trim (experts p) then [lit "Experts"] else []) ++
    (if empty_after_trim (customer_manager p) then [lit "Customer manager"] else []) ++
    (if empty_after_trim (consultation_type p) then [lit "Consultation type"] else []))
  /\ (forall s, empty_after_trim s = true <-> whitespace_only s = true).
Proof.
  assert (E : forall s, empty_after_trim s = whitespace_only s).
  { intros s. unfold empty_after_trim, whitespace_only.
    destruct (forallb is_white_space s) eqn:W.
    - apply trim_nil_iff in W. now rewrite W.
    - destruct (trim s) eqn:T; [|reflexivity].
      apply trim_nil_iff in T. congruence. }
  split; [|intros s; now rewrite E].
  rewrite missingFields_ok.
  - rewrite !E. unfold required. cbn [List.filter fst].
    change (field (profile_object p) "company_name") with (VStr (company_name p)).
    change (field (profile_object p) "country") with (VStr (country p)).
    change (field (profile_object p) "consultation_date") with (VStr (consultation_date p)).
    change (field (profile_object p) "experts") with (VStr (experts p)).
    change (field (profile_object p) "customer_manager") with (VStr (customer_manager p)).
    change (field (profile_object p) "consultation_type") with (VStr (consultation_type p)).
    cbn [counts_as_missing].
    destruct (whitespace_only (company_name p)), (whitespace_only (country p)),
      (whitespace_only (consultation_date p)), (whitespace_only (experts p)),
      (whitespace_only (customer_manager p)), (whitespace_only (consultation_type p));
      reflexivity.
  - intros kl H. unfold required in H. cbn [In] in H.
    destruct H as [<-|[<-|[<-|[<-|[<-|[<-|[]]]]]]]; reflexivity.
Qed.

(** C10. On a profile whose fields are text, [null], [undefined] or absent,
    [missingFields] does not throw, and every field that is [null],
    [undefined] or absent has its label in the result. *)
Theorem C10_missingFields_total (company : gmap string JsVal) :
  (forall kl, In kl required -> text_or_nullish (field company kl.1) = true) ->
  exists missing,
    missingFields company = inr missing /\
    forall key label, In (key, label) required ->
      nullish (field company key) = true -> In label missing.
Proof.
  intros H. eexists. split; [apply missingFields_ok, H|].
  intros key label Hin Hn.
  apply in_map_iff. exists (key, label). split; [reflexivity|].
  apply filter_In. split; [exact Hin|].
  cbn [fst]. destruct (field company key); try discriminate; reflexivity.
Qed.

Lemma C10_witness :
  exists missing,
    missingFields company_with_gaps = inr missing /\
    forall key label, In (key, label) required ->
      nullish (field company_with_gaps key) = true -> In label missing.
Proof.
  apply C10_missingFields_total.
  intros kl H. unfold required in H. cbn [In] in H.
  destruct H as [<-|[<-|[<-|[<-|[<-|[<-|[]]]]]]]; reflexivity.
Defined.

(** The optional call guards [null] and [undefined] only: a value of
    another type has no [trim] to call, and the render throws. *)
Remark missingFields_throws_on_number :
  exists e, missingFields company_with_number = inl e.
Proof. eexists. reflexivity. Qed.

(** *** Verification review *)

(** C1. When the verification history is an array of [N > 0] rounds and the
    selected round is greater than [N], [activeVerification] is the round at
    index [N - 1], the latest one. *)
Theorem C1_active_falls_back_to_latest
    (results : JsVal) (history : list JsVal) (N : nat) (selected : Z) :
  get_opt results "verification_history" = VArr history ->
  length history = N -> (0 < N)%nat -> Z.of_nat N < selected ->
  exists latest,
    history !! (N - 1)%nat = Some latest /\
    activeVerification results selected = inr latest.
Proof.
  intros Hh HN Hpos Hsel.
  destruct (last history) as [latest|] eqn:L.
  2:{ apply last_None in L. subst history. simpl in HN. lia. }
  exists latest. split.
  - rewrite last_lookup in L. rewrite <- HN. now replace (length history - 1)%nat
      with (pred (length history)) by lia.
  - unfold activeVerification, latestVerification, verificationHistory.
    rewrite Hh. cbn [nullish slice_last bind ret]. rewrite L.
    cbn [index bind ret or_else truthy].
    replace (0 <? 0) with false by reflexivity.
    replace (selected - 1 <? 0) with false by (symmetry; apply Z.ltb_ge; lia).
    rewrite (lookup_ge_None_2 history) by lia.
    reflexivity.
Qed.

Lemma C1_witness :
  exists latest,
    [round_with_score 6; round_with_score 8] !! (2 - 1)%nat = Some latest /\
    activeVerification two_rounds 7 = inr latest.
Proof.
  apply (C1_active_falls_back_to_latest two_rounds _ 2 7); [reflexivity|reflexivity|lia|lia].
Defined.

(** *** Submission *)

Lemma truthy_trim_empty (s : js_string) :
  truthy (VStr (trim s)) = negb (empty_after_trim s).
Proof. unfold empty_after_trim. now destruct (trim s). Qed.

Section Submission.

Variable API_URL : js_string.
Variable server : Request -> Reply.

Lemma begin_passes (st : AppState) (missing : list js_string) :
  missingFields (company st) = inr missing ->
  passes_validation missing st = true ->
  exists req,
    handleSubmit_begin API_URL st = inr (InFlight (pending st) req) /\
    (mode st = Transcript -> req = transcript_request API_URL st) /\
    (mode st = Recording -> req = recording_request API_URL st).
Proof.
  intros Hm Hp. unfold passes_validation, credential_present, payload_present in Hp.
  apply andb_prop in Hp as [Hp Hpay]. apply andb_prop in Hp as [Hc Hmiss].
  destruct missing; [clear Hmiss|discriminate].
  unfold handleSubmit_begin. rewrite Hm. cbn [bind ret]. rewrite Hc. cbn [negb length Nat.eqb].
  rewrite truthy_trim_empty.
  destruct (mode st) eqn:M; cbn [is_transcript is_recording andb].
  - destruct (recordingFile st) as [file|] eqn:F; [|discriminate].
    eexists; split; [reflexivity|split; [discriminate|reflexivity]].
  - rewrite Hpay. eexists; split; [reflexivity|split; [reflexivity|discriminate]].
Qed.

Lemma begin_fails (st : AppState) (missing : list js_string) :
  missingFields (company st) = inr missing ->
  passes_validation missing st = false ->
  exists msg, handleSubmit_begin API_URL st = inr (Refused (setError (VStr msg) st)).
Proof.
  intros Hm Hp. unfold passes_validation, credential_present, payload_present in Hp.
  unfold handleSubmit_begin. rewrite Hm. cbn [bind ret].
  destruct (truthy (authToken st)); cbn [negb]; [|now eexists].
  destruct missing; cbn [length Nat.eqb negb]; [|now eexists].
  rewrite truthy_trim_empty. cbn [andb] in Hp.
  destruct (mode st); cbn [is_transcript is_recording andb].
  - destruct (recordingFile st); [discriminate|]. now eexists.
  - rewrite Hp. now eexists.
Qed.

(** C3. A submission checks the credential first, then the missing fields,
    then the payload of the current mode; the first check that fails sets
    its own message and ends the attempt with no call made.  When all three
    hold, one call is made.  The messages differ from one another. *)
Theorem C3_validation_order (st : AppState) (missing : list js_string) :
  missingFields (company st) = inr missing ->
  (credential_present st = false ->
     handleSubmit API_URL server st = inr (setError (VStr msg_login) st, []))
  /\ (credential_present st = true -> missing <> [] ->
     handleSubmit API_URL server st = inr (setError (VStr (msg_missing missing)) st, []))
  /\ (credential_present st = true -> missing = [] ->
     mode st = Transcript -> empty_after_trim (transcript st) = true ->
     handleSubmit API_URL server st = inr (setError (VStr msg_transcript) st, []))
  /\ (credential_present st = true -> missing = [] ->
     mode st = Recording -> recordingFile st = None ->
     handleSubmit API_URL server st = inr (setError (VStr msg_recording) st, []))
  /\ (passes_validation missing st = true ->
     exists st' req, handleSubmit API_URL server st = inr (st', [req]))
  /\ (msg_login <> msg_transcript /\ msg_login <> msg_recording
      /\ msg_transcript <> msg_recording
      /\ msg_missing missing <> msg_login
      /\ msg_missing missing <> msg_transcript
      /\ msg_missing missing <> msg_recording).
Proof.
  intros Hm. unfold credential_present.
  repeat split.
  - intros Hc. unfold handleSubmit, handleSubmit_begin.
    rewrite Hm. cbn [bind ret]. now rewrite Hc.
  - intros Hc Hne. unfold handleSubmit, handleSubmit_begin.
    rewrite Hm. cbn [bind ret]. rewrite Hc. cbn [negb].
    destruct missing; [congruence|reflexivity].
  - intros Hc -> Hmode He. unfold handleSubmit, handleSubmit_begin.
    rewrite Hm. cbn [bind ret]. rewrite Hc, Hmode, truthy_trim_empty, He. reflexivity.
  - intros Hc -> Hmode Hf. unfold handleSubmit, handleSubmit_begin.
    rewrite Hm. cbn [bind ret]. rewrite Hc, Hmode, Hf. reflexivity.
  - intros Hp. destruct (begin_passes st missing Hm Hp) as (req & Hb & _).
    unfold handleSubmit. rewrite Hb. cbn [bind ret]. now eexists _, _.
  - discriminate.
  - discriminate.
  - discriminate.
  - unfold msg_missing. discriminate.
  - unfold msg_missing. discriminate.
  - unfold msg_missing. discriminate.
Qed.

(** C9. A submission that fails a local precondition sets the error message
    and nothing else: the report and its id stay as they were, and no call
    is made. *)
Theorem C9_validation_failure_frame (st : AppState) (missing : list js_string) :
  missingFields (company st) = inr missing ->
  passes_validation missing st = false ->
  exists msg st',
    handleSubmit API_URL server st = inr (st', []) /\
    st' = setError (VStr msg) st /\
    results st' = results st /\
    reportId st' = reportId st.
Proof.
  intros Hm Hp. destruct (begin_fails st missing Hm Hp) as (msg & Hb).
  exists msg, (setError (VStr msg) st). unfold handleSubmit. rewrite Hb.
  repeat split.
Qed.

Lemma get_present (data : JsVal) (name : string) :
  nullish data = false -> get data name = inr (get_opt data name).
Proof. now destruct data. Qed.

(** C4, as the handler behaves.  When a submission passes the local
    preconditions and the call fails, the previous report is gone: it was
    cleared before the call and the failure leaves it cleared.  The failure
    clears [loading] and sets the error to the service's detail if there is
    one, else to the error's message; no other cell changes. *)
Theorem C4_failed_call_clears_report
    (st : AppState) (missing : list js_string) (err : JsError) :
  missingFields (company st) = inr missing ->
  passes_validation missing st = true ->
  (forall req, server req = Rejected err) ->
  exists st' req,
    handleSubmit API_URL server st = inr (st', [req]) /\
    reportId st' = VStr (lit "") /\
    results st' = VNull /\
    loading st' = false /\
    error st' = or_else (get_opt (get_opt (err_response err) "data") "detail")
                        (err_message err) /\
    st' = setLoading false (setError (error st') (resetResults st)).
Proof.
  intros Hm Hp Hs. destruct (begin_passes st missing Hm Hp) as (req & Hb & _).
  unfold handleSubmit. rewrite Hb. cbn [bind ret]. rewrite Hs.
  eexists _, req. split; [reflexivity|]. repeat split.
Qed.

(** C6, as the handler behaves.  When a submission succeeds (the call is
    fulfilled with a body that is not [null] or [undefined]), [reportId] and
    [results] are the [report_id] and [results] of the response, unchanged;
    the selected round keeps the value it had before (so it is 1 only if it
    was 1); the error is empty and [loading] is cleared; no other cell
    changes. *)
Theorem C6_success_stores_response
    (st : AppState) (missing : list js_string) (data : JsVal) :
  missingFields (company st) = inr missing ->
  passes_validation missing st = true ->
  (forall req, server req = Fulfilled data) ->
  nullish data = false ->
  exists st' req,
    handleSubmit API_URL server st = inr (st', [req]) /\
    reportId st' = get_opt data "report_id" /\
    results st' = get_opt data "results" /\
    selectedVerificationRound st' = selectedVerificationRound st /\
    error st' = VStr (lit "") /\
    loading st' = false /\
    st' = setLoading false (setResults (get_opt data "results")
            (setReportId (get_opt data "report_id") (setError (VStr (lit "")) st))).
Proof.
  intros Hm Hp Hs Hd. destruct (begin_passes st missing Hm Hp) as (req & Hb & _).
  unfold handleSubmit. rewrite Hb. cbn [bind ret]. rewrite Hs.
  unfold handleSubmit_settle. rewrite !get_present by exact Hd.
  eexists _, req. split; [reflexivity|]. repeat split.
Qed.

(** C7, as the handler behaves.  A transcript-mode submission that passes
    the preconditions makes exactly one call, to the from-transcript
    endpoint, with an object of exactly eight properties: the transcript,
    the company profile, the meeting notes, the additional instructions,
    [use_azure] and [use_langgraph] as booleans, the selected model, and
    [verification_rounds] as the number [Number(verificationRounds)], never
    a string.  That number is the integer [n] whenever the stored value is
    [n] or its decimal text, for [n] from 1 to 5.  No [file] and no
    [compress_audio] property is sent. *)
Theorem C7_transcript_request
    (st : AppState) (missing : list js_string) :
  missingFields (company st) = inr missing ->
  passes_validation missing st = true ->
  mode st = Transcript ->
  exists st' body,
    handleSubmit API_URL server st =
      inr (st', [ {| url := API_URL ++ lit "/reports/from-transcript";
                     body := JsonBody (VObj body) |} ]) /\
    body !! "transcript" = Some (VStr (transcript st)) /\
    body !! "company_data" = Some (VObj (company st)) /\
    body !! "meeting_notes" = Some (VStr (meetingNotes st)) /\
    body !! "additional_instructions" = Some (VStr (additionalInstructions st)) /\
    body !! "use_azure" = Some (VBool (useAzure st)) /\
    body !! "selected_model" = Some (VStr (selectedModel st)) /\
    body !! "verification_rounds" = Some (VNum (Number (verificationRounds st))) /\
    body !! "use_langgraph" = Some (VBool (useLanggraph st)) /\
    body !! "file" = None /\
    body !! "compress_audio" = None /\
    size body = 8%nat /\
    (forall n, 1 <= n <= 5 ->
       verificationRounds st = RoundsNumber n \/
       verificationRounds st = RoundsText (lit (pretty n)) ->
       integer_value (Number (verificationRounds st)) = Some n).
Proof.
  intros Hm Hp Hmode.
  destruct (begin_passes st missing Hm Hp) as (req & Hb & Hreq & _).
  specialize (Hreq Hmode). subst req.
  unfold handleSubmit. rewrite Hb. cbn [bind ret].
  eexists _, _. split; [reflexivity|].
  repeat split.
  intros n Hn Hv.
  assert (Hc : n = 1 \/ n = 2 \/ n = 3 \/ n = 4 \/ n = 5) by lia.
  destruct Hv as [-> | ->];
    destruct Hc as [-> | [-> | [-> | [-> | ->]]]]; vm_compute; reflexivity.
Qed.

End Submission.

Lemma C3_witness :
  missingFields (company signed_in) = inr [] /\
  handleSubmit api server_down signed_in =
    inr (setError (VStr msg_recording) signed_in, []).
Proof.
  split; [reflexivity|].
  destruct (C3_validation_order api server_down signed_in [] eq_refl)
    as (_ & _ & _ & H & _).
  apply H; reflexivity.
Defined.

Lemma C9_witness :
  missingFields (company signed_out_with_report) = inr [] /\
  passes_validation [] signed_out_with_report = false /\
  exists msg st',
    handleSubmit api server_ok signed_out_with_report = inr (st', []) /\
    st' = setError (VStr msg) signed_out_with_report /\
    results st' = results signed_out_with_report /\
    reportId st' = reportId signed_out_with_report.
Proof.
  split; [reflexivity|]. split; [reflexivity|].
  apply (C9_validation_failure_frame api server_ok signed_out_with_report []);
    reflexivity.
Defined.

(** C4 as stated fails: a report is on display, the submission passes the
    local checks, the call is rejected, and the report is [null] afterwards. *)
Lemma C4_counterexample :
  missingFields (company with_report) = inr [] /\
  passes_validation [] with_report = true /\
  results with_report = two_rounds /\
  exists st',
    handleSubmit api server_down with_report =
      inr (st', [transcript_request api with_report]) /\
    results st' = VNull /\
    reportId st' = VStr (lit "") /\
    results st' <> results with_report /\
    reportId st' <> reportId with_report.
Proof.
  split; [reflexivity|]. split; [reflexivity|]. split; [reflexivity|].
  eexists. split; [reflexivity|].
  repeat split; discriminate.
Qed.

Lemma C4_witness :
  missingFields (company with_report) = inr [] /\
  passes_validation [] with_report = true /\
  exists st' req,
    handleSubmit api server_down with_report = inr (st', [req]) /\
    reportId st' = VStr (lit "") /\
    results st' = VNull /\
    loading st' = false /\
    error st' = or_else (get_opt (get_opt (err_response network_error) "data") "detail")
                        (err_message network_error) /\
    st' = setLoading false (setError (error st') (resetResults with_report)).
Proof.
  split; [reflexivity|]. split; [reflexivity|].
  apply (C4_failed_call_clears_report api server_down with_report [] network_error);
    reflexivity.
Defined.

(** C6 as stated fails: round 2 is selected, the submission succeeds with a
    one-round result, and round 2 is still the selected round. *)
Lemma C6_counterexample :
  missingFields (company with_report) = inr [] /\
  passes_validation [] with_report = true /\
  selectedVerificationRound with_report = 2 /\
  exists st',
    handleSubmit api server_ok with_report =
      inr (st', [transcript_request api with_report]) /\
    reportId st' = VStr (lit "r1") /\
    selectedVerificationRound st' = 2 /\
    selectedVerificationRound st' <> 1.
Proof.
  split; [reflexivity|]. split; [reflexivity|]. split; [reflexivity|].
  eexists. split; [reflexivity|].
  repeat split; discriminate.
Qed.

Lemma C6_witness :
  missingFields (company with_report) = inr [] /\
  passes_validation [] with_report = true /\
  nullish one_round_reply = false /\
  exists st' req,
    handleSubmit api server_ok with_report = inr (st', [req]) /\
    reportId st' = get_opt one_round_reply "report_id" /\
    results st' = get_opt one_round_reply "results" /\
    selectedVerificationRound st' = selectedVerificationRound with_report /\
    error st' = VStr (lit "") /\
    loading st' = false /\
    st' = setLoading false (setResults (get_opt one_round_reply "results")
            (setReportId (get_opt one_round_reply "report_id")
               (setError (VStr (lit "")) with_report))).
Proof.
  split; [reflexivity|]. split; [reflexivity|]. split; [reflexivity|].
  apply (C6_success_stores_response api server_ok with_report [] one_round_reply);
    reflexivity.
Defined.

(** C7 as stated fails: the rounds field holds the text 2.5, the submission
    passes the local checks, and the [verification_rounds] sent is a number
    that is not an integer. *)
Lemma C7_counterexample :
  missingFields (company fractional_rounds) = inr [] /\
  passes_validation [] fractional_rounds = true /\
  mode fractional_rounds = Transcript /\
  exists st' body x,
    handleSubmit api server_ok fractional_rounds =
      inr (st', [ {| url := api ++ lit "/reports/from-transcript";
                     body := JsonBody (VObj body) |} ]) /\
    body !! "verification_rounds" = Some (VNum x) /\
    is_integer x = false.
Proof.
  split; [reflexivity|]. split; [reflexivity|]. split; [reflexivity|].
  eexists _, _, _. split; [reflexivity|]. split; reflexivity.
Qed.

Lemma C7_witness :
  missingFields (company ready_transcript) = inr [] /\
  passes_validation [] ready_transcript = true /\
  mode ready_transcript = Transcript /\
  exists st' body,
    handleSubmit api server_ok ready_transcript =
      inr (st', [ {| url := api ++ lit "/reports/from-transcript";
                     body := JsonBody (VObj body) |} ]) /\
    body !! "transcript" = Some (VStr (lit "Hello world")) /\
    body !! "use_azure" = Some (VBool true) /\
    body !! "verification_rounds" = Some (VNum (of_Z 5)) /\
    body !! "file" = None /\
    body !! "compress_audio" = None /\
    size body = 8%nat.
Proof.
  split; [reflexivity|]. split; [reflexivity|]. split; [reflexivity|].
  destruct (C7_transcript_request api server_ok ready_transcript [] eq_refl eq_refl eq_refl)
    as (st' & body & H & Ht & _ & _ & _ & Ha & _ & Hv & _ & Hf & Hc & Hs & _).
  exists st', body. repeat split; assumption.
Defined.

(** *** Workflow options and clear-all *)

Lemma edit_stores_text (value : js_string) (st : AppState) :
  verificationRounds (onVerificationRoundsChange value st) = RoundsText value.
Proof. reflexivity. Qed.

Lemma clear_all_rounds_in_range (st : AppState) :
  verificationRounds (handleClearAll st) = RoundsNumber 5 /\
  rounds_in_range (verificationRounds (handleClearAll st)) = true.
Proof. split; reflexivity. Qed.

Lemma initial_rounds_in_range (stored : option js_string) :
  rounds_in_range (verificationRounds (initial stored)) = true.
Proof. reflexivity. Qed.

(** C8. The edit handler does not keep the range: typing 7 into the rounds
    field stores the text 7, which stands for the number 7, outside 1 to 5,
    and a transcript request made next carries that 7. *)
Theorem C8_edit_leaves_range (st : AppState) :
  verificationRounds (onVerificationRoundsChange (lit "7") st) = RoundsText (lit "7") /\
  integer_value (Number (verificationRounds (onVerificationRoundsChange (lit "7") st))) = Some 7 /\
  rounds_in_range (verificationRounds (onVerificationRoundsChange (lit "7") st)) = false.
Proof. repeat split. Qed.

(** C5. Clear-all writes these values, whatever the state was: every draft,
    profile and workflow cell is the one of the first render and the error,
    the selected round and the report are reset, the sign-in cells and
    [loading] are untouched, but [mode] becomes transcript while the first
    render starts in recording. *)
Theorem C5_clear_all_mode (st : AppState) (stored : option js_string) :
  handleClearAll st =
    {| mode := Transcript;
       recordingFile := recordingFile (initial stored);
       transcript := transcript (initial stored);
       transcriptFileName := transcriptFileName (initial stored);
       meetingNotes := meetingNotes (initial stored);
       additionalInstructions := additionalInstructions (initial stored);
       company := company (initial stored);
       useAzure := useAzure (initial stored);
       selectedModel := selectedModel (initial stored);
       verificationRounds := verificationRounds (initial stored);
       useLanggraph := useLanggraph (initial stored);
       compressAudio := compressAudio (initial stored);
       loading := loading st;
       error := error (initial stored);
       reportId := reportId (initial stored);
       results := results (initial stored);
       selectedVerificationRound := selectedVerificationRound (initial stored);
       authUser := authUser st;
       authPassword := authPassword st;
       authShowPassword := authShowPassword st;
       authToken := authToken st |}
  /\ mode (initial stored) = Recording
  /\ mode (handleClearAll (initial stored)) <> mode (initial stored).
Proof. repeat split. discriminate. Qed.

(** *** States the handlers produce always render *)

Lemma all_text_renders (company : gmap string JsVal) :
  all_text company -> exists missing, missingFields company = inr missing.
Proof.
  intros H. eexists. apply missingFields_ok.
  intros kl _. unfold field.
  destruct (company !! kl.1) as [v|] eqn:E; [|reflexivity].
  destruct (H _ _ E) as [s ->]. reflexivity.
Qed.

Lemma all_text_default : all_text default_company.
Proof.
  intros key v. unfold default_company.
  rewrite !lookup_insert, lookup_empty.
  repeat case_decide; intros [= <-]; eauto.
Qed.

Lemma all_text_change (name : string) (value : js_string) (st : AppState) :
  all_text (company st) ->
  all_text (company (handleCompanyChange name value st)).
Proof.
  intros H key v. cbn. rewrite lookup_insert.
  case_decide; [intros [= <-]; eauto|apply H].
Qed.

(** *** The documented happy path *)

(** A complete profile, transcript mode, the transcript Hello world: one
    call, and on the one-round reply the report id is r1 and the active
    round is the round scored 8. *)
Example scenario_A :
  exists st',
    handleSubmit api server_ok ready_transcript =
      inr (st', [transcript_request api ready_transcript]) /\
    reportId st' = VStr (lit "r1") /\
    verificationHistory (results st') = VArr [round_with_score 8] /\
    activeVerification (results st') (selectedVerificationRound st') =
      inr (round_with_score 8).
Proof. eexists. repeat split. Qed.

(** ** Further properties of the component *)

Import JsText Rest Machine Samples.

(** *** Field validator: order, failure, and edits *)

Lemma filter_required_sublist (company : gmap string JsVal)
    (req kept : list (string * js_string)) :
  filter_required company req = inr kept -> sublist kept req.
Proof.
  revert kept. induction req as [|[key label] rest IH]; intros kept; simpl.
  - intros [= <-]. constructor.
  - destruct (untrimmed_blank company key) as [e|b]; [discriminate|]. simpl.
    destruct (filter_required company rest) as [e|kept']; [discriminate|]. simpl.
    intros [= <-]. destruct b.
    + apply sublist_skip, IH. reflexivity.
    + apply sublist_cons, IH. reflexivity.
Qed.

Lemma filter_required_throws (company : gmap string JsVal)
    (req : list (string * js_string)) (kl : string * js_string) :
  In kl req -> text_or_nullish (field company kl.1) = false ->
  exists e, filter_required company req = inl e.
Proof.
  induction req as [|[key label] rest IH]; intros Hin Hbad; [destruct Hin|].
  simpl. destruct (untrimmed_blank company key) as [e|b] eqn:U; [now eexists|].
  destruct Hin as [<-|Hin].
  - exfalso. unfold untrimmed_blank, field in *. cbn [fst] in Hbad.
    destruct (default VUndefined (company !! key)); discriminate.
  - destruct (IH Hin Hbad) as [e ->]. now eexists.
Qed.

Lemma required_all_or_some (company : gmap string JsVal) :
  (forall kl, In kl required -> text_or_nullish (field company kl.1) = true) \/
  (exists kl, In kl required /\ text_or_nullish (field company kl.1) = false).
Proof.
  destruct (forallb (fun kl => text_or_nullish (field company kl.1)) required) eqn:F.
  - left. intros kl Hin. rewrite forallb_forall in F. now apply F.
  - right. apply not_true_iff_false in F.
    destruct (existsb (fun kl => negb (text_or_nullish (field company kl.1))) required) eqn:X.
    + apply existsb_exists in X as (kl & Hin & Hb). exists kl. split; [exact Hin|].
      now apply negb_true_iff.
    + exfalso. apply F, forallb_forall. intros kl Hin.
      destruct (text_or_nullish (field company kl.1)) eqn:T; [reflexivity|].
      assert (existsb (fun kl => negb (text_or_nullish (field company kl.1))) required = true)
        by (apply existsb_exists; exists kl; split; [exact Hin|now rewrite T]).
      congruence.
Qed.

Lemma labels_NoDup : NoDup (map snd required).
Proof. apply NoDup_ListNoDup. repeat constructor; cbn; intuition discriminate. Qed.

(** X1. Whatever the profile holds, a result of [missingFields] lists labels
    of the six fields in their declared order, each at most once. *)
Theorem missingFields_in_declared_order (company : gmap string JsVal)
    (missing : list js_string) :
  missingFields company = inr missing ->
  sublist missing (map snd required) /\ NoDup missing /\ (length missing <= 6)%nat.
Proof.
  unfold missingFields. intros H.
  destruct (filter_required company required) as [e|kept] eqn:F; [discriminate|].
  simpl in H. injection H as <-.
  assert (S : sublist (map snd kept) (map snd required)).
  { apply filter_required_sublist in F. clear -F.
    induction F; simpl; constructor; assumption. }
  split; [exact S|]. split.
  - exact (sublist_NoDup _ _ labels_NoDup S).
  - apply sublist_length in S. exact S.
Qed.

Lemma missingFields_in_declared_order_witness :
  missingFields company_with_gaps = inr [lit "Country"; lit "Consultation date";
                                         lit "Experts"; lit "Customer manager"] /\
  sublist [lit "Country"; lit "Consultation date"; lit "Experts"; lit "Customer manager"]
          (map snd required).
Proof.
  split; [reflexivity|].
  apply (missingFields_in_declared_order company_with_gaps). reflexivity.
Defined.

(** X2. [missingFields] throws exactly when one of the six fields holds a
    value that is neither text nor [null] nor [undefined]. *)
Theorem missingFields_throws_iff (company : gmap string JsVal) :
  (exists e, missingFields company = inl e) <->
  (exists kl, In kl required /\ text_or_nullish (field company kl.1) = false).
Proof.
  split.
  - intros [e He]. destruct (required_all_or_some company) as [Hall|Hsome]; [|exact Hsome].
    rewrite missingFields_ok in He by exact Hall. discriminate.
  - intros (kl & Hin & Hbad). unfold missingFields.
    destruct (filter_required_throws company required kl Hin Hbad) as [e ->].
    now eexists.
Qed.

Lemma field_insert (company : gmap string JsVal) (key key' : string) (v : JsVal) :
  field (<[key := v]> company) key' = if decide (key = key') then v else field company key'.
Proof.
  unfold field. rewrite lookup_insert. now destruct (decide (key = key')).
Qed.

Lemma renders_text_or_nullish (company : gmap string JsVal) (missing : list js_string) :
  missingFields company = inr missing ->
  forall kl, In kl required -> text_or_nullish (field company kl.1) = true.
Proof.
  intros H kl Hin.
  destruct (text_or_nullish (field company kl.1)) eqn:T; [reflexivity|].
  assert (X : exists e, missingFields company = inl e)
    by (apply missingFields_throws_iff; eauto).
  destruct X as [e He]. congruence.
Qed.

Lemma filter_without (req : list (string * js_string)) (f : string * js_string -> bool)
    (key : string) (label : js_string) :
  (forall kl, In kl req -> key = kl.1 <-> kl.2 = label) ->
  map snd (List.filter (fun kl => if decide (key = kl.1) then false else f kl) req) =
  List.filter (fun x => negb (bool_decide (x = label))) (map snd (List.filter f req)).
Proof.
  induction req as [|kl rest IH]; intros H; [reflexivity|].
  cbn [List.filter]. specialize (IH (fun kl' Hk => H kl' (or_intror Hk))).
  pose proof (H kl (or_introl eq_refl)) as Hkl.
  destruct (decide (key = kl.1)) as [E|E].
  - rewrite IH. destruct (f kl); [|reflexivity].
    cbn [map List.filter]. rewrite bool_decide_eq_true_2 by (now apply Hkl).
    reflexivity.
  - destruct (f kl); [|exact IH].
    cbn [map List.filter]. rewrite bool_decide_eq_false_2 by (intros E'; now apply E, Hkl).
    cbn [negb]. now rewrite IH.
Qed.

Lemma required_key_label (key : string) (label : js_string) :
  In (key, label) required ->
  forall kl, In kl required -> key = kl.1 <-> kl.2 = label.
Proof.
  unfold required. cbn [In].
  intros [E|[E|[E|[E|[E|[E|[]]]]]]]; injection E as <- <-;
    intros kl [<-|[<-|[<-|[<-|[<-|[<-|[]]]]]]]; cbn [fst snd];
    split; intros Hx; solve [reflexivity | discriminate Hx].
Qed.

(** X3. Typing text that is not blank into one of the six fields removes
    that field's label from the missing fields and changes nothing else in
    the list. *)
Theorem missingFields_after_fill
    (st : AppState) (key : string) (label value : js_string) (missing : list js_string) :
  In (key, label) required ->
  whitespace_only value = false ->
  missingFields (company st) = inr missing ->
  missingFields (company (handleCompanyChange key value st)) =
    inr (List.filter (fun x => negb (bool_decide (x = label))) missing).
Proof.
  intros Hin Hv Hm.
  pose proof (renders_text_or_nullish _ _ Hm) as Hall.
  rewrite missingFields_ok in Hm by exact Hall.
  assert (Em : missing = map snd (List.filter
                (fun kl => counts_as_missing (field (company st) kl.1)) required))
    by congruence.
  subst missing. clear Hm.
  change (company (handleCompanyChange key value st))
    with (<[key := VStr value]> (company st)).
  rewrite missingFields_ok.
  2:{ intros kl Hk. rewrite field_insert. case_decide; [reflexivity|now apply Hall]. }
  f_equal.
  rewrite <- (filter_without required _ key label (required_key_label key label Hin)).
  f_equal. apply filter_ext. intros kl. rewrite field_insert.
  destruct (decide (key = kl.1)); [exact Hv|reflexivity].
Qed.

Lemma missingFields_after_fill_witness :
  missingFields (company (initial None)) =
    inr [lit "Company name"; lit "Consultation date"; lit "Customer manager"] /\
  missingFields (company (handleCompanyChange "consultation_date" (lit "2024-05-01")
                            (initial None))) =
    inr [lit "Company name"; lit "Customer manager"].
Proof.
  split; [reflexivity|].
  apply (missingFields_after_fill (initial None) "consultation_date"
           (lit "Consultation date") (lit "2024-05-01")
           [lit "Company name"; lit "Consultation date"; lit "Customer manager"]).
  - cbn. tauto.
  - reflexivity.
  - reflexivity.
Defined.

(** *** Submission: what it leaves alone, odd replies, repeated attempts *)

Section SubmissionMore.

Variable API_URL : js_string.
Variable server : Request -> Reply.

Lemma settle_frame (reply : Reply) (st : AppState) :
  let st' := handleSubmit_settle reply st in
  st' = setLoading false (setError (error st')
          (setReportId (reportId st') (setResults (results st') st))).
Proof.
  unfold handleSubmit_settle. destruct reply as [data|err]; [|reflexivity].
  destruct (get data "report_id"); [reflexivity|].
  destruct (get data "results"); reflexivity.
Qed.

Lemma submit_frame (st st' : AppState) (calls : list Request) :
  handleSubmit API_URL server st = inr (st', calls) ->
  st' = setLoading (loading st') (setError (error st')
          (setReportId (reportId st') (setResults (results st') st))) /\
  (length calls <= 1)%nat.
Proof.
  unfold handleSubmit, handleSubmit_begin.
  destruct (missingFields (company st)) as [e|missing]; [discriminate|].
  cbn [bind ret].
  repeat match goal with
         | |- context [if ?c then _ else _] =>
             lazymatch c with
             | is_transcript _ => fail
             | _ => destruct c
             end
         end;
    intros [= <- <-]; (split; [|simpl; lia]);
    try reflexivity.
  all: match goal with
       | |- handleSubmit_settle ?r ?s = _ =>
           rewrite (settle_frame r s) at 1; reflexivity
       end.
Qed.

(** X4. A submission, however it ends, writes only [loading], [error],
    [reportId] and [results]: the draft, the profile, the workflow options,
    the selected round and the sign-in cells are as before; and it makes at
    most one call. *)
Theorem handleSubmit_writes_four_cells
    (st st' : AppState) (calls : list Request) :
  handleSubmit API_URL server st = inr (st', calls) ->
  st' = setLoading (loading st') (setError (error st')
          (setReportId (reportId st') (setResults (results st') st))) /\
  (length calls <= 1)%nat.
Proof. apply submit_frame. Qed.

(** X5. A call that is fulfilled with a [null] or [undefined] body is
    handled like a failed one: reading [report_id] throws inside the [try],
    so an error is shown, the report stays cleared and [loading] is
    cleared. *)
Theorem handleSubmit_empty_body
    (st : AppState) (missing : list js_string) (data : JsVal) :
  missingFields (company st) = inr missing ->
  passes_validation missing st = true ->
  (forall req, server req = Fulfilled data) ->
  nullish data = true ->
  exists st' req,
    handleSubmit API_URL server st = inr (st', [req]) /\
    truthy (error st') = true /\
    reportId st' = VStr (lit "") /\
    results st' = VNull /\
    loading st' = false.
Proof.
  intros Hm Hp Hs Hd. destruct (begin_passes API_URL st missing Hm Hp) as (req & Hb & _).
  unfold handleSubmit. rewrite Hb. cbn [bind ret]. rewrite Hs.
  eexists _, req. split; [reflexivity|].
  destruct data; try discriminate; repeat split.
Qed.

(** X6. The branch of the draft that the mode does not use is ignored: in
    transcript mode the calls made do not depend on the selected recording
    or on the compress-audio option, and in recording mode they do not
    depend on the transcript text or its file name. *)
Theorem handleSubmit_ignores_unused_branch
    (st st1 : AppState) (calls : list Request) :
  handleSubmit API_URL server st = inr (st1, calls) ->
  (mode st = Transcript ->
     forall file compress, exists st2,
       handleSubmit API_URL server (setCompressAudio compress (setRecordingFile file st))
         = inr (st2, calls)) /\
  (mode st = Recording ->
     forall text name, exists st2,
       handleSubmit API_URL server (setTranscriptFileName name (setTranscript text st))
         = inr (st2, calls)).
Proof.
  intros H. split; intros Hmode *.
  - set (st2 := setCompressAudio compress (setRecordingFile file st)).
    assert (Ec : company st2 = company st) by reflexivity.
    assert (Ea : authToken st2 = authToken st) by reflexivity.
    assert (Em : mode st2 = mode st) by reflexivity.
    assert (Et : transcript st2 = transcript st) by reflexivity.
    assert (Er : transcript_request API_URL st2 = transcript_request API_URL st)
      by reflexivity.
    unfold handleSubmit, handleSubmit_begin in *.
    rewrite Ec, Ea, Em, Et, Hmode in *. clearbody st2.
    destruct (missingFields (company st)) as [e|missing]; [discriminate|].
    cbn [bind ret is_transcript is_recording andb] in *. rewrite Er.
    destruct (negb (truthy (authToken st))); [injection H as <- <-; eauto|].
    destruct (negb (length missing =? 0)%nat); [injection H as <- <-; eauto|].
    destruct (negb (truthy (VStr (trim (transcript st)))));
      injection H as <- <-; eexists; reflexivity.
  - set (st2 := setTranscriptFileName name (setTranscript text st)).
    assert (Ec : company st2 = company st) by reflexivity.
    assert (Ea : authToken st2 = authToken st) by reflexivity.
    assert (Em : mode st2 = mode st) by reflexivity.
    assert (Ef : recordingFile st2 = recordingFile st) by reflexivity.
    assert (Er : recording_request API_URL st2 = recording_request API_URL st)
      by reflexivity.
    unfold handleSubmit, handleSubmit_begin in *.
    rewrite Ec, Ea, Em, Ef, Hmode in *. clearbody st2.
    destruct (missingFields (company st)) as [e|missing]; [discriminate|].
    cbn [bind ret is_transcript is_recording andb] in *. rewrite Er.
    destruct (negb (truthy (authToken st))); [injection H as <- <-; eauto|].
    destruct (negb (length missing =? 0)%nat); [injection H as <- <-; eauto|].
    destruct (negb (has_file (recordingFile st)));
      injection H as <- <-; eexists; reflexivity.
Qed.

(** X7. Submitting again from the state a submission ended in, against the
    same service, makes the same calls and ends in that same state. *)
Theorem handleSubmit_again
    (st st1 : AppState) (calls : list Request) :
  handleSubmit API_URL server st = inr (st1, calls) ->
  handleSubmit API_URL server st1 = inr (st1, calls).
Proof.
  intros H.
  destruct (submit_frame st st1 calls H) as [E _].
  assert (Ec : company st1 = company st) by (rewrite E; reflexivity).
  assert (Ea : authToken st1 = authToken st) by (rewrite E; reflexivity).
  assert (Em : mode st1 = mode st) by (rewrite E; reflexivity).
  assert (Et : transcript st1 = transcript st) by (rewrite E; reflexivity).
  assert (Ef : recordingFile st1 = recordingFile st) by (rewrite E; reflexivity).
  assert (Ep : pending st1 = pending st) by (rewrite E; reflexivity).
  assert (Er : transcript_request API_URL st1 = transcript_request API_URL st)
    by (rewrite E; reflexivity).
  assert (Eg : recording_request API_URL st1 = recording_request API_URL st)
    by (rewrite E; reflexivity).
  clear E. revert H. unfold handleSubmit, handleSubmit_begin.
  fold (pending st1). fold (pending st).
  rewrite Ec, Ea, Em, Et, Ef, Ep, Er, Eg.
  destruct (missingFields (company st)) as [e|missing]; [discriminate|].
  cbn [bind ret].
  destruct (negb (truthy (authToken st))); [intros [= <- <-]; reflexivity|].
  destruct (negb (length missing =? 0)%nat); [intros [= <- <-]; reflexivity|].
  destruct (is_transcript (mode st) && negb (truthy (VStr (trim (transcript st)))));
    [intros [= <- <-]; reflexivity|].
  destruct (is_recording (mode st) && negb (has_file (recordingFile st)));
    [intros [= <- <-]; reflexivity|].
  intros [= <- <-]. reflexivity.
Qed.

End SubmissionMore.

Lemma handleSubmit_writes_four_cells_witness :
  exists st' calls,
    handleSubmit api server_ok with_report = inr (st', calls) /\
    st' = setLoading (loading st') (setError (error st')
            (setReportId (reportId st') (setResults (results st') with_report))) /\
    (length calls <= 1)%nat.
Proof.
  eexists _, _. split; [reflexivity|].
  apply (handleSubmit_writes_four_cells api server_ok with_report). reflexivity.
Defined.

Lemma handleSubmit_empty_body_witness :
  missingFields (company with_report) = inr [] /\
  passes_validation [] with_report = true /\
  exists st' req,
    handleSubmit api server_empty with_report = inr (st', [req]) /\
    truthy (error st') = true /\
    reportId st' = VStr (lit "") /\
    results st' = VNull /\
    loading st' = false.
Proof.
  split; [reflexivity|]. split; [reflexivity|].
  apply (handleSubmit_empty_body api server_empty with_report [] VNull); reflexivity.
Defined.

Lemma handleSubmit_ignores_unused_branch_witness :
  exists st1 calls,
    handleSubmit api server_ok ready_transcript = inr (st1, calls) /\
    mode ready_transcript = Transcript /\
    exists st2,
      handleSubmit api server_ok
        (setCompressAudio false
           (setRecordingFile (Some {| file_name := lit "a.mp3"; file_bytes := [] |})
              ready_transcript))
        = inr (st2, calls).
Proof.
  eexists _, _. split; [reflexivity|]. split; [reflexivity|].
  destruct (handleSubmit_ignores_unused_branch api server_ok ready_transcript _ _ eq_refl)
    as [H _].
  apply (H eq_refl).
Defined.

Lemma handleSubmit_again_witness :
  exists st1 calls,
    handleSubmit api server_ok with_report = inr (st1, calls) /\
    handleSubmit api server_ok st1 = inr (st1, calls).
Proof.
  eexists _, _. split; [reflexivity|].
  apply (handleSubmit_again api server_ok with_report). reflexivity.
Defined.

(** *** Report links *)

Section Links.

Variable API_URL : js_string.
Variable server : Request -> Reply.

(** X8. After a submission that succeeds with a non-empty text as
    [report_id], the download and preview links are the service address
    followed by [/reports/], that id, and [/download] or [/html]. *)
Theorem links_after_success
    (st : AppState) (missing : list js_string) (data : gmap string JsVal)
    (rid : js_string) :
  missingFields (company st) = inr missing ->
  passes_validation missing st = true ->
  (forall req, server req = Fulfilled (VObj data)) ->
  data !! "report_id" = Some (VStr rid) -> rid <> [] ->
  exists st' calls,
    handleSubmit API_URL server st = inr (st', calls) /\
    downloadUrl API_URL st' = VStr (API_URL ++ lit "/reports/" ++ rid ++ lit "/download") /\
    htmlUrl API_URL st' = VStr (API_URL ++ lit "/reports/" ++ rid ++ lit "/html").
Proof.
  intros Hm Hp Hs Hid Hne.
  destruct (begin_passes API_URL st missing Hm Hp) as (req & Hb & _).
  unfold handleSubmit. rewrite Hb. cbn [bind ret]. rewrite Hs.
  eexists _, _. split; [reflexivity|].
  unfold downloadUrl, htmlUrl, handleSubmit_settle. cbn [get ret]. rewrite Hid.
  cbn [default from_option id reportId setLoading setResults setReportId].
  destruct rid as [|c r]; [congruence|]. split; reflexivity.
Qed.

(** X9. No link is offered after a submission whose call was rejected, nor
    after clear-all. *)
Theorem no_links_without_report
    (st : AppState) (missing : list js_string) (err : JsError) :
  missingFields (company st) = inr missing ->
  passes_validation missing st = true ->
  (forall req, server req = Rejected err) ->
  (exists st' calls,
     handleSubmit API_URL server st = inr (st', calls) /\
     downloadUrl API_URL st' = VNull /\ htmlUrl API_URL st' = VNull) /\
  downloadUrl API_URL (handleClearAll st) = VNull /\
  htmlUrl API_URL (handleClearAll st) = VNull.
Proof.
  intros Hm Hp Hs. split; [|split; reflexivity].
  destruct (begin_passes API_URL st missing Hm Hp) as (req & Hb & _).
  unfold handleSubmit. rewrite Hb. cbn [bind ret]. rewrite Hs.
  eexists _, _. split; [reflexivity|]. split; reflexivity.
Qed.

End Links.

Lemma links_after_success_witness :
  missingFields (company ready_transcript) = inr [] /\
  passes_validation [] ready_transcript = true /\
  exists st' calls,
    handleSubmit api server_ok ready_transcript = inr (st', calls) /\
    downloadUrl api st' = VStr (api ++ lit "/reports/" ++ lit "r1" ++ lit "/download") /\
    htmlUrl api st' = VStr (api ++ lit "/reports/" ++ lit "r1" ++ lit "/html").
Proof.
  split; [reflexivity|]. split; [reflexivity|].
  eapply (links_after_success api server_ok ready_transcript [] _ (lit "r1"));
    [reflexivity|reflexivity|intros req; reflexivity|reflexivity|discriminate].
Defined.

Lemma no_links_without_report_witness :
  missingFields (company with_report) = inr [] /\
  passes_validation [] with_report = true /\
  truthy (reportId with_report) = true /\
  exists st' calls,
    handleSubmit api server_down with_report = inr (st', calls) /\
    downloadUrl api st' = VNull /\ htmlUrl api st' = VNull.
Proof.
  split; [reflexivity|]. split; [reflexivity|]. split; [reflexivity|].
  apply (no_links_without_report api server_down with_report [] network_error);
    reflexivity.
Defined.

(** *** Clear-all *)

(** X10. What clear-all produces depends only on [loading] and the sign-in
    cells of the state it is applied to; applying it twice is the same as
    applying it once. *)
Theorem handleClearAll_forgets (st1 st2 : AppState) :
  loading st1 = loading st2 ->
  authUser st1 = authUser st2 ->
  authPassword st1 = authPassword st2 ->
  authShowPassword st1 = authShowPassword st2 ->
  authToken st1 = authToken st2 ->
  handleClearAll st1 = handleClearAll st2 /\
  handleClearAll (handleClearAll st1) = handleClearAll st1.
Proof.
  intros Hl Hu Hp Hs Ht. split; [|reflexivity].
  destruct st1, st2. cbn in Hl, Hu, Hp, Hs, Ht. subst. reflexivity.
Qed.

Lemma handleClearAll_forgets_witness :
  handleClearAll with_report = handleClearAll signed_in /\
  handleClearAll (handleClearAll with_report) = handleClearAll with_report.
Proof.
  apply (handleClearAll_forgets with_report signed_in); reflexivity.
Defined.

(** X11. After clear-all a signed-in user cannot submit at once: the
    attempt is refused, with no call, because the default profile leaves
    the company name, the consultation date and the customer manager
    empty. *)
Theorem submit_after_clear_all
    (API_URL : js_string) (server : Request -> Reply) (st : AppState) :
  credential_present st = true ->
  handleSubmit API_URL server (handleClearAll st) =
    inr (setError
           (VStr (lit "Missing required fields: Company name, Consultation date, Customer manager"))
           (handleClearAll st), []).
Proof.
  unfold credential_present. intros Hc.
  unfold handleSubmit, handleSubmit_begin.
  change (company (handleClearAll st)) with default_company.
  change (authToken (handleClearAll st)) with (authToken st).
  change (missingFields default_company) with
    (@inr Thrown (list js_string)
       [lit "Company name"; lit "Consultation date"; lit "Customer manager"]).
  cbn [bind ret]. rewrite Hc. reflexivity.
Qed.

Lemma submit_after_clear_all_witness :
  credential_present with_report = true /\
  handleSubmit api server_ok (handleClearAll with_report) =
    inr (setError
           (VStr (lit "Missing required fields: Company name, Consultation date, Customer manager"))
           (handleClearAll with_report), []).
Proof.
  split; [reflexivity|].
  apply (submit_after_clear_all api server_ok with_report). reflexivity.
Defined.

(** *** Verification review: selection inside the range, empty and odd payloads *)

Lemma latest_of_array (results : JsVal) (history : list JsVal) :
  get_opt results "verification_history" = VArr history ->
  latestVerification results = inr (default VUndefined (last history)).
Proof.
  intros Hh. unfold latestVerification. rewrite Hh. cbn [nullish slice_last bind ret].
  destruct (last history); reflexivity.
Qed.

Lemma picked_of_array (results : JsVal) (history : list JsVal) (selected : Z) :
  get_opt results "verification_history" = VArr history ->
  index (verificationHistory results) (selected - 1) =
    inr (if selected - 1 <? 0 then VUndefined
         else default VUndefined (history !! Z.to_nat (selected - 1))).
Proof.
  intros Hh. unfold verificationHistory. now rewrite Hh.
Qed.

(** X12. Selecting a round inside the range shows that round: when the
    history is an array, [1 <= n <= N] and the entry at [n - 1] is truthy
    (any object is), [activeVerification] is that entry. *)
Theorem active_is_selected_round
    (results : JsVal) (history : list JsVal) (n : Z) (round : JsVal) :
  get_opt results "verification_history" = VArr history ->
  1 <= n <= Z.of_nat (length history) ->
  history !! Z.to_nat (n - 1) = Some round ->
  truthy round = true ->
  activeVerification results n = inr round.
Proof.
  intros Hh Hn Hr Ht. unfold activeVerification.
  rewrite (latest_of_array _ _ Hh), (picked_of_array _ _ _ Hh). cbn [bind ret].
  replace (n - 1 <? 0) with false by (symmetry; apply Z.ltb_ge; lia).
  rewrite Hr. cbn [default from_option id]. unfold or_else. now rewrite Ht.
Qed.

Lemma active_is_selected_round_witness :
  activeVerification two_rounds 1 = inr (round_with_score 6).
Proof.
  apply (active_is_selected_round two_rounds
           [round_with_score 6; round_with_score 8] 1 (round_with_score 6));
    [reflexivity|simpl; lia|reflexivity|reflexivity].
Defined.

(** X13. Whatever round is selected (zero, negative, beyond the end, or an
    entry that is [null]), a non-empty history array always yields one of
    its own entries as [activeVerification], without a throw. *)
Theorem active_is_some_round
    (results : JsVal) (history : list JsVal) (selected : Z) :
  get_opt results "verification_history" = VArr history ->
  history <> [] ->
  exists round, activeVerification results selected = inr round /\ In round history.
Proof.
  intros Hh Hne. unfold activeVerification.
  rewrite (latest_of_array _ _ Hh), (picked_of_array _ _ _ Hh). cbn [bind ret].
  destruct (last history) as [latest|] eqn:L.
  2:{ apply last_None in L. contradiction. }
  assert (Hl : In latest history)
    by (apply list_elem_of_In, last_Some_elem_of, L).
  cbn [default from_option id]. unfold or_else.
  destruct (selected - 1 <? 0); [cbn; eauto|].
  destruct (history !! Z.to_nat (selected - 1)) as [picked|] eqn:P; [|cbn; eauto].
  cbn [default from_option id]. destruct (truthy picked); [|eauto].
  exists picked. split; [reflexivity|].
  apply list_elem_of_In. eapply list_elem_of_lookup_2, P.
Qed.

Lemma active_is_some_round_witness :
  exists round,
    activeVerification two_rounds (-3) = inr round /\
    In round [round_with_score 6; round_with_score 8].
Proof.
  apply (active_is_some_round two_rounds [round_with_score 6; round_with_score 8] (-3));
    [reflexivity|discriminate].
Defined.

(** X14. With nothing to review (no results yet, results without a
    verification history, or an empty history) the latest and the active
    round are both [undefined], for every selected round, and nothing
    throws. *)
Theorem nothing_to_review (results : JsVal) (selected : Z) :
  nullish (get_opt results "verification_history") = true \/
  get_opt results "verification_history" = VArr [] ->
  latestVerification results = inr VUndefined /\
  activeVerification results selected = inr VUndefined.
Proof.
  intros [Hn | He]; unfold activeVerification, latestVerification, verificationHistory.
  - destruct (get_opt results "verification_history"); try discriminate;
      cbn; now destruct (selected - 1 <? 0).
  - rewrite He. cbn. now destruct (selected - 1 <? 0).
Qed.

Lemma nothing_to_review_witness :
  latestVerification (results (initial None)) = inr VUndefined /\
  activeVerification (results (initial None)) 1 = inr VUndefined.
Proof.
  apply (nothing_to_review (results (initial None)) 1). left. reflexivity.
Defined.

(** X15. Computing the latest and the active round throws exactly when the
    verification history is a boolean, a number or an object: those have no
    [slice] to call.  A string or an array never makes them throw. *)
Theorem review_throws_iff (results : JsVal) (selected : Z) :
  let odd := match get_opt results "verification_history" with
             | VBool _ | VNum _ | VObj _ => True
             | _ => False
             end in
  ((exists e, latestVerification results = inl e) <-> odd) /\
  ((exists e, activeVerification results selected = inl e) <-> odd).
Proof.
  unfold activeVerification, latestVerification, verificationHistory.
  destruct (get_opt results "verification_history") as [| |b|x|s|l|o];
    cbn [nullish slice_last bind ret or_else truthy index negb is_zero_or_nan throw];
    (split; (split; [intros [e He]|intros Ho]));
    try discriminate; try tauto; try (now eexists).
  all: try (destruct (last _); cbn in He; discriminate).
  destruct s as [|c r]; cbn [or_else truthy index bind ret] in He; discriminate.
Qed.


(** X16. The revision panel is safe: whenever its condition, read through
    optional chaining, is truthy, the unguarded read it then shows does not
    throw and is that same value.  When the revision history is an array
    shorter than the selected round, the condition is [undefined] and the
    panel is not shown. *)
Theorem revision_panel_safe (results : JsVal) (selected : Z) :
  (truthy (revision_guard results selected) = true ->
     revision_shown results selected = inr (revision_guard results selected)) /\
  (forall history,
     get_opt results "revision_history" = VArr history ->
     Z.of_nat (length history) < selected ->
     revision_guard results selected = VUndefined).
Proof.
  unfold revision_guard, revision_shown, index_opt. split.
  - destruct results as [| |b|x|s|l|o]; try discriminate; cbn [get get_opt bind ret];
      try (cbn; discriminate).
    destruct (default VUndefined (o !! "revision_history")) as [| |b|x|s|l|o'];
      try (cbn; discriminate); cbn [index bind ret].
    + destruct (selected - 1 <? 0); [cbn; discriminate|].
      destruct (s !! Z.to_nat (selected - 1)); cbn; discriminate.
    + destruct (if selected - 1 <? 0 then VUndefined
                else default VUndefined (l !! Z.to_nat (selected - 1)))
        as [| |b|x|s|l'|o']; try (cbn; discriminate).
      reflexivity.
    + destruct (default VUndefined (o' !! pretty (selected - 1)))
        as [| |b|x|s|l'|o'']; try (cbn; discriminate).
      reflexivity.
  - intros history Hh Hs. rewrite Hh. cbn [index].
    replace (selected - 1 <? 0) with false by (symmetry; apply Z.ltb_ge; lia).
    rewrite (lookup_ge_None_2 history) by lia. reflexivity.
Qed.

(** *** Session: sign-in, persistence, sign-out *)

Lemma blank_refuses (s : js_string) :
  whitespace_only s = true -> negb (truthy (VStr (trim s))) = true.
Proof. intros H. now rewrite truthy_trim, H. Qed.

Section Session.

Variable API_URL : js_string.
Variable server : Request -> Reply.

(** X17. Signing in with a user name or a password that is empty or only
    whitespace makes no call: the error asks for both, and the stored
    credential, the browser storage and the request header are untouched. *)
Theorem handleLogin_needs_both (st : AppState) (b : Browser) :
  whitespace_only (authUser st) = true \/ whitespace_only (authPassword st) = true ->
  handleLogin API_URL server st b =
    (setError (VStr (lit "Enter both username and password.")) st, b, []).
Proof.
  intros H. unfold handleLogin, handleLogin_begin.
  rewrite !truthy_trim, !negb_involutive.
  destruct H as [-> | ->]; [reflexivity|].
  now rewrite orb_true_r.
Qed.

(** X18. A sign-in that the service answers with a non-empty text token
    stores that token in the cell, saves it under [authToken] in the browser
    storage, sets the header to [Bearer] and the token, and clears [loading]
    and the error; a page load from that storage starts signed in with the
    same token. *)
Theorem handleLogin_persists
    (st : AppState) (b : Browser) (data : gmap string JsVal) (token : js_string) :
  whitespace_only (authUser st) = false ->
  whitespace_only (authPassword st) = false ->
  (forall req, server req = Fulfilled (VObj data)) ->
  data !! "access_token" = Some (VStr token) -> token <> [] ->
  exists st' b' req,
    handleLogin API_URL server st b = (st', b', [req]) /\
    url req = API_URL ++ lit "/auth/login" /\
    authToken st' = VStr token /\
    localStorage b' !! "authToken" = Some token /\
    Authorization b' = Some (lit "Bearer " ++ token) /\
    loading st' = false /\ error st' = VStr (lit "") /\
    authToken (fst (reload b')) = VStr token /\
    sign_in_shown (fst (reload b')) = false.
Proof.
  intros Hu Hp Hs Ht Hne. unfold handleLogin, handleLogin_begin.
  rewrite !truthy_trim, Hu, Hp. cbn [negb orb]. rewrite Hs.
  unfold handleLogin_settle. cbn [get ret]. rewrite Ht.
  cbn [default from_option id ToString].
  eexists _, _, _. split; [reflexivity|].
  cbn [url login_request authToken setLoading setAuthToken localStorage Authorization
       loading error setError].
  rewrite lookup_insert_eq.
  repeat split.
  - unfold reload, initial. cbn [fst localStorage authToken]. rewrite lookup_insert_eq.
    destruct token; [congruence|reflexivity].
  - unfold sign_in_shown, reload, initial. cbn [fst localStorage authToken].
    rewrite lookup_insert_eq. destruct token; [congruence|reflexivity].
Qed.

(** X19. A sign-in whose call is rejected changes neither the stored
    credential nor the browser storage nor the header: it sets the error to
    the service's detail if there is one, else to the error's message, and
    clears [loading]. *)
Theorem handleLogin_failure_keeps_session
    (st : AppState) (b : Browser) (err : JsError) :
  whitespace_only (authUser st) = false ->
  whitespace_only (authPassword st) = false ->
  (forall req, server req = Rejected err) ->
  handleLogin API_URL server st b =
    (setLoading false
       (setError (or_else (get_opt (get_opt (err_response err) "data") "detail")
                          (err_message err)) st),
     b, [login_request API_URL st]).
Proof.
  intros Hu Hp Hs. unfold handleLogin, handleLogin_begin.
  rewrite !truthy_trim, Hu, Hp. cbn [negb orb]. rewrite Hs. reflexivity.
Qed.

End Session.

Section SessionMore.

Variable API_URL : js_string.
Variable server : Request -> Reply.

(** X20. Signing out empties the credential cell and the sign-in form,
    removes the stored token and the header, and the next render does not
    set the header again; a page load then starts signed out.  The report
    and its id stay in memory, hidden. *)
Theorem handleLogout_signs_out (st : AppState) (b : Browser) :
  let st' := fst (handleLogout st b) in
  let b' := snd (handleLogout st b) in
  sign_in_shown st' = true /\
  authUser st' = lit "" /\ authPassword st' = lit "" /\
  localStorage b' !! "authToken" = None /\
  Authorization b' = None /\
  render_effect st' b' = b' /\
  sign_in_shown (fst (reload b')) = true /\
  report_shown st' = false /\
  results st' = results st /\ reportId st' = reportId st.
Proof.
  cbn [fst snd handleLogout]. repeat split.
  - apply lookup_delete_eq.
  - unfold sign_in_shown, reload, initial. cbn [fst localStorage authToken].
    now rewrite lookup_delete_eq.
  - unfold report_shown. cbn [authToken setAuthShowPassword setAuthPassword
      setAuthUser setAuthToken truthy lit]. apply andb_false_r.
Qed.

(** X21. After signing out, a submission is refused for the missing
    credential, whatever the draft holds, and makes no call. *)
Theorem submit_after_logout
    (st : AppState) (b : Browser) (missing : list js_string) :
  missingFields (company st) = inr missing ->
  handleSubmit API_URL server (fst (handleLogout st b)) =
    inr (setError (VStr (lit "Please log in to generate a report."))
           (fst (handleLogout st b)), []).
Proof.
  intros Hm. unfold handleSubmit, handleSubmit_begin.
  change (company (fst (handleLogout st b))) with (company st). rewrite Hm.
  reflexivity.
Qed.

(** X22. Signing out does not discard the report: after a sign-out and a
    new successful sign-in on the same page, the report of the earlier
    session is the one in the cells, and it is shown again. *)
Theorem report_survives_new_session
    (st : AppState) (b : Browser) (user password token : js_string)
    (data : gmap string JsVal) :
  whitespace_only user = false ->
  whitespace_only password = false ->
  (forall req, server req = Fulfilled (VObj data)) ->
  data !! "access_token" = Some (VStr token) -> token <> [] ->
  let typed := setAuthPassword password (setAuthUser user (fst (handleLogout st b))) in
  let st' := fst (fst (handleLogin API_URL server typed (snd (handleLogout st b)))) in
  results st' = results st /\
  reportId st' = reportId st /\
  report_shown st' = truthy (results st).
Proof.
  intros Hu Hp Hs Ht Hne typed st'. subst st' typed.
  unfold handleLogin, handleLogin_begin.
  cbn [authUser authPassword setAuthPassword setAuthUser].
  rewrite !truthy_trim, Hu, Hp. cbn [negb orb]. rewrite Hs.
  unfold handleLogin_settle. cbn [get ret]. rewrite Ht.
  cbn [default from_option id fst]. unfold report_shown.
  cbn [results reportId authToken setLoading setAuthToken].
  repeat split.
  destruct token; [congruence|]. cbn [truthy]. apply andb_true_r.
Qed.

(** X23. A sign-in answered without an [access_token] leaves the page
    signed out, since the cell holds [undefined]; but the text [undefined]
    is saved as the token and sent in the header, so the next page load
    starts signed in with that text as its token. *)
Theorem handleLogin_without_token
    (st : AppState) (b : Browser) (data : gmap string JsVal) :
  whitespace_only (authUser st) = false ->
  whitespace_only (authPassword st) = false ->
  (forall req, server req = Fulfilled (VObj data)) ->
  data !! "access_token" = None ->
  exists st' b' req,
    handleLogin API_URL server st b = (st', b', [req]) /\
    authToken st' = VUndefined /\
    sign_in_shown st' = true /\
    error st' = VStr (lit "") /\
    localStorage b' !! "authToken" = Some (lit "undefined") /\
    Authorization b' = Some (lit "Bearer undefined") /\
    authToken (fst (reload b')) = VStr (lit "undefined") /\
    sign_in_shown (fst (reload b')) = false.
Proof.
  intros Hu Hp Hs Ht. unfold handleLogin, handleLogin_begin.
  rewrite !truthy_trim, Hu, Hp. cbn [negb orb]. rewrite Hs.
  unfold handleLogin_settle. cbn [get ret]. rewrite Ht.
  cbn [default from_option id ToString].
  eexists _, _, _. split; [reflexivity|].
  cbn [authToken setLoading setAuthToken localStorage Authorization error setError].
  rewrite lookup_insert_eq. repeat split.
  - unfold reload, initial. cbn [fst localStorage authToken].
    now rewrite lookup_insert_eq.
  - unfold sign_in_shown, reload, initial. cbn [fst localStorage authToken].
    now rewrite lookup_insert_eq.
Qed.

(** X24. Every call a submission makes goes out under the current
    credential: when the handler reaches its call, the render it belongs to
    has set the header to [Bearer] and the text of the token. *)
Theorem submit_call_has_bearer
    (st st' : AppState) (req : Request) (b : Browser) :
  handleSubmit_begin API_URL st = inr (InFlight st' req) ->
  Authorization (render_effect st b) = Some (lit "Bearer " ++ ToString (authToken st)).
Proof.
  unfold handleSubmit_begin, render_effect.
  destruct (missingFields (company st)) as [e|missing]; [discriminate|].
  cbn [bind ret]. destruct (truthy (authToken st)); cbn [negb];
    [intros _; reflexivity|discriminate].
Qed.

(** X25. A transcript file that was read as text becomes the transcript:
    with a credential and a complete profile in transcript mode, a
    submission after the load sends that text, whatever was typed before;
    removing the file selection afterwards clears only the shown name, and
    the same text is sent. *)
Theorem loaded_transcript_is_sent
    (st : AppState) (file : File) (text : js_string) :
  missingFields (company st) = inr [] ->
  credential_present st = true ->
  mode st = Transcript ->
  whitespace_only text = false ->
  let loaded := transcript_read_done file (OnLoad (VStr text)) st in
  let cleared := fst (handleTranscriptFile None loaded) in
  transcriptFileName loaded = file_name file /\
  transcriptFileName cleared = lit "" /\
  exists body,
    body !! "transcript" = Some (VStr text) /\
    (exists st1, handleSubmit API_URL server loaded =
       inr (st1, [ {| url := API_URL ++ lit "/reports/from-transcript";
                      body := JsonBody (VObj body) |} ])) /\
    (exists st2, handleSubmit API_URL server cleared =
       inr (st2, [ {| url := API_URL ++ lit "/reports/from-transcript";
                      body := JsonBody (VObj body) |} ])).
Proof.
  intros Hm Hc Hmode Ht loaded cleared. unfold credential_present in Hc.
  split; [reflexivity|]. split; [reflexivity|].
  eexists. split; [|split].
  2:{ unfold handleSubmit, handleSubmit_begin.
      change (company loaded) with (company st). rewrite Hm. cbn [bind ret].
      change (authToken loaded) with (authToken st). rewrite Hc.
      change (mode loaded) with (mode st). rewrite Hmode.
      change (transcript loaded) with text. rewrite truthy_trim, Ht.
      cbn [negb length Nat.eqb is_transcript is_recording andb].
      eexists. reflexivity. }
  2:{ unfold handleSubmit, handleSubmit_begin.
      change (company cleared) with (company st). rewrite Hm. cbn [bind ret].
      change (authToken cleared) with (authToken st). rewrite Hc.
      change (mode cleared) with (mode st). rewrite Hmode.
      change (transcript cleared) with text. rewrite truthy_trim, Ht.
      cbn [negb length Nat.eqb is_transcript is_recording andb].
      eexists. reflexivity. }
  reflexivity.
Qed.

End SessionMore.

Lemma revision_panel_safe_witness :
  truthy (revision_guard revised_rounds 1) = true /\
  revision_shown revised_rounds 1 = inr (VStr (lit "Tightened the summary.")) /\
  revision_guard revised_rounds 2 = VUndefined.
Proof.
  destruct (revision_panel_safe revised_rounds 1) as [H1 _].
  destruct (revision_panel_safe revised_rounds 2) as [_ H2].
  split; [reflexivity|]. split; [apply (H1 eq_refl)|].
  apply (H2 _ eq_refl). simpl. lia.
Defined.

Lemma handleLogin_needs_both_witness :
  whitespace_only (authPassword half_typed_login) = true /\
  handleLogin api server_login half_typed_login fresh_browser =
    (setError (VStr (lit "Enter both username and password.")) half_typed_login,
     fresh_browser, []).
Proof.
  split; [reflexivity|].
  apply (handleLogin_needs_both api server_login half_typed_login fresh_browser).
  right. reflexivity.
Defined.

Lemma handleLogin_persists_witness :
  exists st' b' req,
    handleLogin api server_login typed_login fresh_browser = (st', b', [req]) /\
    url req = api ++ lit "/auth/login" /\
    authToken st' = VStr (lit "tok") /\
    localStorage b' !! "authToken" = Some (lit "tok") /\
    Authorization b' = Some (lit "Bearer " ++ lit "tok") /\
    loading st' = false /\ error st' = VStr (lit "") /\
    authToken (fst (reload b')) = VStr (lit "tok") /\
    sign_in_shown (fst (reload b')) = false.
Proof.
  apply (handleLogin_persists api server_login typed_login fresh_browser
           token_reply (lit "tok"));
    [reflexivity|reflexivity|intros req; reflexivity|reflexivity|discriminate].
Defined.

Lemma handleLogin_failure_keeps_session_witness :
  handleLogin api server_down typed_login fresh_browser =
    (setLoading false (setError (VStr (lit "Network Error")) typed_login),
     fresh_browser, [login_request api typed_login]).
Proof.
  apply (handleLogin_failure_keeps_session api server_down typed_login fresh_browser
           network_error);
    [reflexivity|reflexivity|intros req; reflexivity].
Defined.

Lemma submit_after_logout_witness :
  missingFields (company with_report) = inr [] /\
  handleSubmit api server_ok (fst (handleLogout with_report fresh_browser)) =
    inr (setError (VStr (lit "Please log in to generate a report."))
           (fst (handleLogout with_report fresh_browser)), []).
Proof.
  split; [reflexivity|].
  apply (submit_after_logout api server_ok with_report fresh_browser []). reflexivity.
Defined.

Lemma report_survives_new_session_witness :
  let typed := setAuthPassword (lit "secret")
                 (setAuthUser (lit "bob") (fst (handleLogout with_report fresh_browser))) in
  let st' := fst (fst (handleLogin api server_login typed
                         (snd (handleLogout with_report fresh_browser)))) in
  results st' = results with_report /\
  reportId st' = reportId with_report /\
  report_shown st' = truthy (results with_report).
Proof.
  apply (report_survives_new_session api server_login with_report fresh_browser
           (lit "bob") (lit "secret") (lit "tok") token_reply);
    [reflexivity|reflexivity|intros req; reflexivity|reflexivity|discriminate].
Defined.

Lemma handleLogin_without_token_witness :
  exists st' b' req,
    handleLogin api server_tokenless typed_login fresh_browser = (st', b', [req]) /\
    authToken st' = VUndefined /\
    sign_in_shown st' = true /\
    error st' = VStr (lit "") /\
    localStorage b' !! "authToken" = Some (lit "undefined") /\
    Authorization b' = Some (lit "Bearer undefined") /\
    authToken (fst (reload b')) = VStr (lit "undefined") /\
    sign_in_shown (fst (reload b')) = false.
Proof.
  apply (handleLogin_without_token api server_tokenless typed_login fresh_browser
           tokenless_reply);
    [reflexivity|reflexivity|intros req; reflexivity|reflexivity].
Defined.

Lemma submit_call_has_bearer_witness :
  handleSubmit_begin api ready_transcript =
    inr (InFlight (pending ready_transcript) (transcript_request api ready_transcript)) /\
  Authorization (render_effect ready_transcript fresh_browser) =
    Some (lit "Bearer " ++ lit "token").
Proof.
  split; [reflexivity|].
  apply (submit_call_has_bearer api ready_transcript _ _ fresh_browser eq_refl).
Defined.

Lemma loaded_transcript_is_sent_witness :
  let st := setMode Transcript signed_in in
  let loaded := transcript_read_done notes_file (OnLoad (VStr (lit "Hello world"))) st in
  let cleared := fst (handleTranscriptFile None loaded) in
  transcriptFileName loaded = lit "meeting.txt" /\
  transcriptFileName cleared = lit "" /\
  exists body,
    body !! "transcript" = Some (VStr (lit "Hello world")) /\
    (exists st1, handleSubmit api server_ok loaded =
       inr (st1, [ {| url := api ++ lit "/reports/from-transcript";
                      body := JsonBody (VObj body) |} ])) /\
    (exists st2, handleSubmit api server_ok cleared =
       inr (st2, [ {| url := api ++ lit "/reports/from-transcript";
                      body := JsonBody (VObj body) |} ])).
Proof.
  apply (loaded_transcript_is_sent api server_ok (setMode Transcript signed_in)
           notes_file (lit "Hello world")); reflexivity.
Defined.

(** *** Invariants of every run of the page *)

Section Runs.

Variable API_URL : js_string.

Lemma login_outcome (server : Request -> Reply) (st : AppState) (b : Browser) :
  let '(st', b') := fst (handleLogin API_URL server st b) in
  company st' = company st /\
  ((authToken st' = authToken st /\ b' = b) \/
   b' = {| localStorage := <["authToken" := ToString (authToken st')]> (localStorage b);
           Authorization := Some (lit "Bearer " ++ ToString (authToken st')) |}).
Proof.
  unfold handleLogin, handleLogin_begin.
  destruct (negb (truthy (VStr (trim (authUser st))))
            || negb (truthy (VStr (trim (authPassword st))))); cbn [fst].
  - split; [reflexivity|]. left. split; reflexivity.
  - unfold handleLogin_settle.
    destruct (server (login_request API_URL st)) as [data|err].
    + destruct (get data "access_token") as [e|token].
      * split; [reflexivity|]. left. split; reflexivity.
      * split; [reflexivity|]. right. reflexivity.
    + split; [reflexivity|]. left. split; reflexivity.
Qed.

Lemma submit_outcome (server : Request -> Reply) (st st' : AppState)
    (calls : list Request) :
  handleSubmit API_URL server st = inr (st', calls) ->
  company st' = company st /\ authToken st' = authToken st.
Proof.
  intros H. destruct (submit_frame API_URL server st st' calls H) as [E _].
  split; [exact (f_equal company E)|exact (f_equal authToken E)].
Qed.

Lemma handle_all_text (ev : Event) (st : AppState) (b : Browser) :
  all_text (company st) -> all_text (company (fst (handle API_URL ev st b))).
Proof.
  intros H. destruct ev as [m|f|f read|v|v|v|name v|v|v|v|v|v|n|v|v|v|server| |server| | ];
    cbn [handle fst]; try exact H.
  - destruct f as [file|]; cbn [handleTranscriptFile]; [|exact H].
    destruct read as [[]|]; exact H.
  - now apply all_text_change.
  - destruct (handleSubmit API_URL server st) as [e|[st' calls]] eqn:E; [exact H|].
    apply submit_outcome in E as [E _]. cbn [fst]. rewrite E. exact H.
  - apply all_text_default.
  - pose proof (login_outcome server st b) as L.
    destruct (fst (handleLogin API_URL server st b)) as [st' b'].
    destruct L as [E _]. cbn [fst]. rewrite E. exact H.
  - apply all_text_default.
Qed.

(** X26. In every state the page can reach, from any browser storage and
    through any sequence of events, the company profile holds only text,
    so the field validator of the render does not throw. *)
Theorem validator_never_throws (b0 : Browser) (events : list Event) :
  all_text (company (fst (run API_URL b0 events))) /\
  exists missing, missingFields (company (fst (run API_URL b0 events))) = inr missing.
Proof.
  assert (A : all_text (company (fst (run API_URL b0 events)))).
  { unfold run.
    assert (S : forall s ev, all_text (company (fst s)) ->
                             all_text (company (fst (step API_URL s ev)))).
    { intros s ev Hs. unfold step.
      pose proof (handle_all_text ev (fst s) (snd s) Hs) as Hh.
      destruct (handle API_URL ev (fst s) (snd s)). exact Hh. }
    generalize (step API_URL (initial None, b0) Reloaded)
               (S (initial None, b0) Reloaded all_text_default).
    induction events as [|ev rest IH]; intros s Hs; [exact Hs|].
    cbn [fold_left]. apply IH, S, Hs. }
  split; [exact A|]. apply all_text_renders, A.
Qed.




End Runs.

(** X28. Once the handlers have run to their end, [loading] is clear: no
    sequence of events leaves the page with [loading] set, whatever the
    service answered. *)
Theorem loading_is_cleared (API_URL : js_string) (b0 : Browser) (events : list Event) :
  loading (fst (run API_URL b0 events)) = false.
Proof.
  unfold run.
  assert (S : forall s ev, loading (fst s) = false ->
                           loading (fst (step API_URL s ev)) = false).
  { intros [st b] ev Hs. cbn [fst] in Hs. unfold step. cbn [fst snd].
    destruct ev as [m|f|f read|v|v|v|name v|v|v|v|v|v|n|v|v|v|server| |server| | ];
      cbn [handle]; try exact Hs; try reflexivity.
    - destruct f as [file|]; cbn [handleTranscriptFile]; [|exact Hs].
      destruct read as [[]|]; exact Hs.
    - unfold handleSubmit, handleSubmit_begin.
      destruct (missingFields (company st)) as [e|missing]; [exact Hs|].
      cbn [bind ret].
      repeat match goal with
             | |- context [if ?c then _ else _] =>
                 lazymatch c with
                 | is_transcript _ => fail
                 | _ => destruct c
                 end
             end; try exact Hs.
      reflexivity.
    - unfold handleLogin, handleLogin_begin.
      destruct (negb (truthy (VStr (trim (authUser st))))
                || negb (truthy (VStr (trim (authPassword st))))); cbn [fst]; [exact Hs|].
      unfold handleLogin_settle.
      destruct (server (login_request API_URL st)) as [data|err]; [|reflexivity].
      destruct (get data "access_token"); reflexivity. }
  generalize (step API_URL (initial None, b0) Reloaded)
             (S (initial None, b0) Reloaded eq_refl).
  induction events as [|ev rest IH]; intros s Hs; [exact Hs|].
  cbn [fold_left]. apply IH, S, Hs.
Qed.

(** *** Text of numbers: the cases of [Number::toString] *)

Example number_text_samples :
  List.map (fun t => number_to_string (StringToNumber (lit t)))
    ["5"; "2.50"; "0.1"; "1e21"; "1e-7"; "-0"; "abc"]
  = List.map lit
    ["5"; "2.5"; "0.1"; "1e+21"; "1e-7"; "0"; "NaN"].
Proof. vm_compute. reflexivity. Qed.

Example array_text_sample :
  ToString (VArr [VNum (of_Z 1); VNull; VStr (lit "a"); VArr [VBool true; VUndefined]])
  = lit "1,,a,true,".
Proof. vm_compute. reflexivity. Qed.
